(** * IMSKOS: adaptive RAG workflow and scaffold backend

    A shallow embedding of the routing workflow of [app.py]
    ([IntelligentRouter], [AdaptiveRAGWorkflow]) and of the FastAPI
    scaffold under [backend/app] (query endpoint, request schema,
    cached settings), with the properties the specification states
    about them.

    Conventions.
    - A Python [dict] is a [gmap string _]; [d.get(k, v)] is
      [default v (d !! k)].
    - A raised [Exception] is carried by its message [str(e)].
    - The external providers (LLM router chain, retriever, Wikipedia
      tool, generation chain) are section variables that either return a
      value or raise, whatever value they are handed; every call is recorded in a trace of events.
    - A Python [float] is carried as a rational; rounding is not
      modelled, no property below depends on it.
    - A Python [str] is carried by its UTF-8 encoding, so a character
      outside ASCII takes several bytes of the [string]; [len] and
      slices count characters ([py_len], [py_take]), not bytes. *)

From Stdlib Require Import String Ascii List ZArith QArith DecimalString Lia.
From stdpp Require Import base option list strings gmap.
Import ListNotations.
Close Scope Q_scope.
Open Scope list_scope.

(** ** Python values *)

Module Py.

(** [langchain_core.documents.Document]. *)
Record Document := mkDocument {
  page_content : string;
  metadata : list (string * string)
}.

(** The values stored in the graph state and in the result dict. *)
Inductive PyVal :=
| VNone
| VStr (s : string)
| VInt (n : Z)
| VFloat (x : Q)
| VDoc (d : Document)
| VList (l : list Document).

(** The line feed of the source's ["\n"]. *)
Definition nl : string := String (ascii_of_nat 10) EmptyString.

(** [str(n)] for a non-negative [int]. *)
Definition str_nat (n : nat) : string :=
  NilEmpty.string_of_uint (Nat.to_uint n).

(** [str(z)] for an [int]. *)
Definition str_int (z : Z) : string :=
  NilEmpty.string_of_int (Z.to_int z).

(** [sep.join(parts)]. *)
Definition join (sep : string) (parts : list string) : string :=
  String.concat sep parts.

(** [s[:n]] on a [str] of ASCII characters (one byte each), such as
    the hexadecimal digits of [uuid.uuid4().hex]. *)
Definition str_take (n : nat) (s : string) : string := substring 0 n s.

(** A byte [10xxxxxx] continues the UTF-8 encoding of a character;
    every other byte starts one. *)
Definition is_continuation (c : ascii) : bool :=
  match c with
  | Ascii _ _ _ _ _ _ b6 b7 => b7 && negb b6
  end.

(** [len(s)]: the number of characters (code points) of a [str], that
    is the number of bytes of its encoding that start a character. *)
Fixpoint py_len (s : string) : nat :=
  match s with
  | EmptyString => 0
  | String c rest =>
      if is_continuation c then py_len rest else S (py_len rest)
  end.

(** [s[:n]]: the first [n] characters of a [str], each with all the
    bytes of its encoding. *)
Fixpoint py_take (n : nat) (s : string) : string :=
  match s with
  | EmptyString => EmptyString
  | String c rest =>
      if is_continuation c then String c (py_take n rest)
      else
        match n with
        | 0 => EmptyString
        | S n' => String c (py_take n' rest)
        end
  end.

(** [s * n]. *)
Fixpoint str_mul (s : string) (n : nat) : string :=
  match n with
  | 0 => EmptyString
  | S n' => s +:+ str_mul s n'
  end.

(** Truthiness of an [Optional[str]]: [None] and [""] are falsy. *)
Definition truthy (o : option string) : bool :=
  match o with
  | Some s => negb (String.eqb s "")
  | None => false
  end.

End Py.
Export Py.

(** ** Exceptions, events and the workflow monad *)

(** An exception, by its [str(e)]. *)
Definition Exn := string.

(** What an execution does to the outside world, in order. *)
Inductive Event :=
| EClassify (question : PyVal)                    (* question_router.invoke *)
| ERetrieve (question : PyVal)                    (* retriever.invoke *)
| EWiki (query : PyVal)                           (* wiki.invoke *)
| EGenerate (context : string) (question : PyVal) (* generation_chain.invoke *)
| ENode (name : string).                          (* a graph node is entered *)

(** A computation that may raise and that extends the trace; the trace
    survives an exception. *)
Definition M (A : Type) : Type := list Event -> (Exn + A) * list Event.

Definition ret {A} (a : A) : M A := fun tr => (inr a, tr).

Definition raise {A} (e : Exn) : M A := fun tr => (inl e, tr).

Definition bind {A B} (m : M A) (k : A -> M B) : M B :=
  fun tr =>
    match m tr with
    | (inr a, tr') => k a tr'
    | (inl e, tr') => (inl e, tr')
    end.

(** [try: m except Exception as e: h e]. *)
Definition try_except {A} (m : M A) (h : Exn -> M A) : M A :=
  fun tr =>
    match m tr with
    | (inr a, tr') => (inr a, tr')
    | (inl e, tr') => h e tr'
    end.

(** An external call: log it, then return or raise as the provider does. *)
Definition call {A} (ev : Event) (r : Exn + A) : M A :=
  fun tr => (r, tr ++ [ev]).

Declare Scope wf_scope.
Delimit Scope wf_scope with wf.
Notation "x <- m ;; k" := (bind m (fun x => k))
  (at level 100, m at next level, right associativity) : wf_scope.
Notation "m ;;; k" := (bind m (fun _ => k))
  (at level 100, right associativity) : wf_scope.
Open Scope wf_scope.

(** [str(KeyError(key))]: the key between quotes. *)
Definition key_error (key : string) : Exn := "'" +:+ key +:+ "'".

(** [state[key]]: a missing key raises [KeyError]. *)
Definition getitem (d : gmap string PyVal) (key : string) : M PyVal :=
  match d !! key with
  | Some v => ret v
  | None => raise (key_error key)
  end.

(** ** The routing workflow of app.py *)

Section Workflow.

(** [IntelligentRouter.question_router.invoke(...).datasource]. *)
Variable question_router : PyVal -> Exn + string.
(** [AdaptiveRAGWorkflow.retriever.invoke]. *)
Variable retriever : PyVal -> Exn + list Document.
(** [AdaptiveRAGWorkflow.wiki.invoke]. *)
Variable wiki : PyVal -> Exn + string.
(** [IntelligentRouter.generation_chain.invoke], by context and question. *)
Variable generation_chain : string -> PyVal -> Exn + string.
(** [str(x)] of a float. *)
Variable float_repr : Q -> string.

(** [IntelligentRouter.route]. *)
Definition route (question : PyVal) : M string :=
  call (EClassify question) (question_router question).

(** One entry of the list comprehension of [generate_response]:
    [f"Document {i+1}:\n{doc.page_content}"]. *)
Definition format_doc (i : nat) (doc : Document) : string :=
  "Document " +:+ str_nat (i + 1) +:+ ":" +:+ nl +:+ page_content doc.

(** [[f"..." for i, doc in enumerate(documents[:5])]]. *)
Definition context_blocks (documents : list Document) : list string :=
  imap format_doc (take 5 documents).

(** The context string of [IntelligentRouter.generate_response]: the
    list branch, then [documents.page_content], then [str(documents)]. *)
Definition build_context (documents : PyVal) : string :=
  match documents with
  | VList docs => join (nl +:+ nl) (context_blocks docs)
  | VDoc d => page_content d
  | VNone => "None"
  | VStr s => s
  | VInt n => str_int n
  | VFloat x => float_repr x
  end.

(** [IntelligentRouter.generate_response]. *)
Definition generate_response (question : PyVal) (documents : PyVal) : M string :=
  let context := build_context documents in
  call (EGenerate context question) (generation_chain context question).

(** *** LangGraph state graph

    The part of [langgraph.graph.StateGraph] that [build_graph] uses:
    named nodes, one conditional entry, plain edges, and a run that
    has one active node per step.  [stream] yields one
    [{node: update}] dict after each node and raises what a node or
    a path function raises; the updates yielded before an exception
    have already reached the caller's loop. *)

Definition START : string := "__start__".
Definition END : string := "__end__".

Definition NodeFn : Type := gmap string PyVal -> M (gmap string PyVal).
Definition PathFn : Type := gmap string PyVal -> M string.

Record StateGraph := mkGraph {
  nodes : gmap string NodeFn;
  branches : gmap string (PathFn * gmap string string);
  edges : list (string * string)
}.

Definition empty_graph : StateGraph := mkGraph ∅ ∅ [].

Definition add_node (name : string) (fn : NodeFn) (g : StateGraph) : StateGraph :=
  mkGraph (<[name := fn]> (nodes g)) (branches g) (edges g).

Definition add_conditional_edges (src : string) (path : PathFn)
    (path_map : gmap string string) (g : StateGraph) : StateGraph :=
  mkGraph (nodes g) (<[src := (path, path_map)]> (branches g)) (edges g).

Definition add_edge (src dst : string) (g : StateGraph) : StateGraph :=
  mkGraph (nodes g) (branches g) (edges g ++ [(src, dst)]).

(** The first plain edge leaving [src]. *)
Fixpoint edge_from (src : string) (es : list (string * string)) : option string :=
  match es with
  | [] => None
  | (a, b) :: es' => if String.eqb a src then Some b else edge_from src es'
  end.

(** The node that runs after [cur]. *)
Definition successor (g : StateGraph) (cur : string) (state : gmap string PyVal) : M string :=
  match branches g !! cur with
  | Some (path, path_map) =>
      r <- path state ;;
      match path_map !! r with
      | Some dst => ret dst
      | None => raise (key_error r)
      end
  | None => ret (default END (edge_from cur (edges g)))
  end.

(** What a generator has yielded when the consumer's loop ends, and
    the exception that ended it, if any. *)
Definition Gen (A : Type) : Type := list Event -> (list A * option Exn) * list Event.

(** One [{node: update}] dict of the stream, as its items. *)
Definition Output : Type := list (string * gmap string PyVal).

(** LangGraph's default [recursion_limit]. *)
Definition recursion_limit : nat := 25.

Fixpoint pregel (g : StateGraph) (fuel : nat) (cur : string)
    (state : gmap string PyVal) : Gen Output :=
  fun tr =>
    match fuel with
    | O => (([], Some "GraphRecursionError"), tr)
    | S fuel' =>
        match successor g cur state tr with
        | (inl e, tr1) => (([], Some e), tr1)
        | (inr dst, tr1) =>
            if String.eqb dst END then (([], None), tr1)
            else
              match nodes g !! dst with
              | None => (([], Some (key_error dst)), tr1)
              | Some fn =>
                  match fn state (tr1 ++ [ENode dst]) with
                  | (inl e, tr2) => (([], Some e), tr2)
                  | (inr update, tr2) =>
                      let '((outs, exc), tr3) := pregel g fuel' dst (update ∪ state) tr2 in
                      (([(dst, update)] :: outs, exc), tr3)
                  end
              end
        end
    end.

(** [self.app.stream(inputs)]; [self.app] is [None] until
    [build_graph] has run. *)
Definition stream (app : option StateGraph) (inputs : gmap string PyVal) : Gen Output :=
  match app with
  | Some g => pregel g recursion_limit START inputs
  | None => fun tr => (([], Some "'NoneType' object has no attribute 'stream'"), tr)
  end.

(** A dict display [{k1: v1, k2: v2, ...}]. *)
Definition dict (items : list (string * PyVal)) : gmap string PyVal :=
  fold_left (fun d kv => <[kv.1 := kv.2]> d) items ∅.

(** *** AdaptiveRAGWorkflow *)

(** [AdaptiveRAGWorkflow.retrieve]. *)
Definition retrieve : NodeFn := fun state =>
  question <- getitem state "question" ;;
  documents <- call (ERetrieve question) (retriever question) ;;
  ret (dict [("documents", VList documents); ("question", question);
             ("route", VStr "vectorstore")]).

(** The passage [wiki_search] substitutes when the lookup raises. *)
Definition wiki_placeholder (e : Exn) : Document :=
  mkDocument ("Wikipedia search returned no results for this query. Error: " +:+ e) [].

(** [AdaptiveRAGWorkflow.wiki_search]. *)
Definition wiki_search : NodeFn := fun state =>
  question <- getitem state "question" ;;
  wiki_results <-
    try_except
      (docs <- call (EWiki question) (wiki question) ;;
       ret (mkDocument docs []))
      (fun e => ret (wiki_placeholder e)) ;;
  ret (dict [("documents", VList [wiki_results]); ("question", question);
             ("route", VStr "wikipedia")]).

(** [AdaptiveRAGWorkflow.generate]. *)
Definition generate : NodeFn := fun state =>
  question <- getitem state "question" ;;
  documents <- getitem state "documents" ;;
  generation <- generate_response question documents ;;
  ret (dict [("question", question); ("documents", documents);
             ("generation", VStr generation);
             ("route", default (VStr "unknown") (state !! "route"))]).

(** The decision of [route_question] on the classifier's answer. *)
Definition route_of_source (source : string) : string :=
  if String.eqb source "wiki_search" then "wiki_search" else "vectorstore".

(** [AdaptiveRAGWorkflow.route_question]. *)
Definition route_question : PathFn := fun state =>
  question <- getitem state "question" ;;
  source <- route question ;;
  ret (route_of_source source).

(** [AdaptiveRAGWorkflow.build_graph]: the value stored in [self.app]. *)
Definition build_graph : StateGraph :=
  let workflow := empty_graph in
  let workflow := add_node "wiki_search" wiki_search workflow in
  let workflow := add_node "retrieve" retrieve workflow in
  let workflow := add_node "generate" generate workflow in
  let workflow :=
    add_conditional_edges START route_question
      (<["vectorstore" := "retrieve"]> (<["wiki_search" := "wiki_search"]> ∅))
      workflow in
  let workflow := add_edge "retrieve" "generate" workflow in
  let workflow := add_edge "wiki_search" "generate" workflow in
  let workflow := add_edge "generate" END workflow in
  workflow.

(** The body of the two nested [for] loops of [execute] for one
    [(key, value)] item. *)
Definition consume_item (result : gmap string PyVal)
    (item : string * gmap string PyVal) : gmap string PyVal :=
  let '(key, value) := item in
  if String.eqb key "generate" then
    let result := <["generation" := default (VStr "") (value !! "generation")]> result in
    let result := <["route" := default (VStr "unknown") (value !! "route")]> result in
    <["documents" := default (VList []) (value !! "documents")]> result
  else if String.eqb key "retrieve" || String.eqb key "wiki_search" then
    let result := <["route" := default (VStr key) (value !! "route")]> result in
    <["documents" := default (VList []) (value !! "documents")]> result
  else result.

Definition consume (result : gmap string PyVal) (output : Output) : gmap string PyVal :=
  fold_left consume_item output result.

(** The [except Exception as e] clause of [execute]. *)
Definition on_exception (e : Exn) (result : gmap string PyVal) : gmap string PyVal :=
  let result := <["generation" := VStr ("Error executing query: " +:+ e)]> result in
  <["route" := VStr "error"]> result.

(** The dict [execute] starts from. *)
Definition initial_result : gmap string PyVal :=
  dict [("route", VNone); ("documents", VList []);
        ("generation", VStr ""); ("execution_time", VInt 0)].

(** [AdaptiveRAGWorkflow.execute]; [t0] and [t1] are the two readings
    of [time.time()]. *)
Definition execute (app : option StateGraph) (question : string) (t0 t1 : Q)
    : M (gmap string PyVal) :=
  fun tr =>
    let inputs := dict [("question", VStr question)] in
    let result := initial_result in
    let start_time := t0 in
    let '((outputs, exc), tr') := stream app inputs tr in
    let result := fold_left consume outputs result in
    let result :=
      match exc with
      | Some e => on_exception e result
      | None => result
      end in
    let result := <["execution_time" := VFloat (Qminus t1 start_time)]> result in
    (inr result, tr').

(** [self.app] before and after [build_graph()] has been called. *)
Definition workflow_app (built : bool) : option StateGraph :=
  if built then Some build_graph else None.

(** *** Reading an execution

    The exception that ends the stream, the result dict at that
    moment, and the passage the secondary stage hands on. *)

Definition stream_exception (app : option StateGraph) (question : string)
    (tr : list Event) : option Exn :=
  (stream app (dict [("question", VStr question)]) tr).1.2.

Definition partial_result (app : option StateGraph) (question : string)
    (tr : list Event) : gmap string PyVal :=
  fold_left consume (stream app (dict [("question", VStr question)]) tr).1.1
    initial_result.

Definition wiki_document (question : PyVal) : Document :=
  match wiki question with
  | inr docs => mkDocument docs []
  | inl e => wiki_placeholder e
  end.

(** The route label and the bundle of the retrieval stage that
    completes for a question, if one does. *)
Definition retrieval_outcome (question : PyVal) : option (string * list Document) :=
  match question_router question with
  | inl _ => None
  | inr source =>
      if String.eqb source "wiki_search" then
        Some ("wikipedia", [wiki_document question])
      else
        match retriever question with
        | inr docs => Some ("vectorstore", docs)
        | inl _ => None
        end
  end.

(** The updates the two stages that complete hand to [execute]. *)
Definition retrieval_update (label : string) (question : PyVal)
    (docs : list Document) : gmap string PyVal :=
  dict [("documents", VList docs); ("question", question); ("route", VStr label)].

Definition generate_update (label : string) (question : PyVal)
    (docs : list Document) (g : string) : gmap string PyVal :=
  dict [("question", question); ("documents", VList docs);
        ("generation", VStr g); ("route", VStr label)].

(** What the stream of the compiled graph does, case by case. *)
Definition stream_cases (q : string) : Gen Output :=
  fun tr =>
    let question := VStr q in
    match question_router question with
    | inl e => (([], Some e), tr ++ [EClassify question])
    | inr source =>
        if String.eqb source "wiki_search" then
          let docs := [wiki_document question] in
          let context := build_context (VList docs) in
          let tr' := tr ++ [EClassify question; ENode "wiki_search"; EWiki question;
                            ENode "generate"; EGenerate context question] in
          let first := [("wiki_search", retrieval_update "wikipedia" question docs)] in
          match generation_chain context question with
          | inl e => (([first], Some e), tr')
          | inr g =>
              (([first; [("generate", generate_update "wikipedia" question docs g)]],
                None), tr')
          end
        else
          match retriever question with
          | inl e =>
              (([], Some e),
               tr ++ [EClassify question; ENode "retrieve"; ERetrieve question])
          | inr docs =>
              let context := build_context (VList docs) in
              let tr' := tr ++ [EClassify question; ENode "retrieve"; ERetrieve question;
                                ENode "generate"; EGenerate context question] in
              let first := [("retrieve", retrieval_update "vectorstore" question docs)] in
              match generation_chain context question with
              | inl e => (([first], Some e), tr')
              | inr g =>
                  (([first; [("generate", generate_update "vectorstore" question docs g)]],
                    None), tr')
              end
          end
    end.

End Workflow.

(** ** Observations on a result dict and on a trace *)

Definition route_label (result : gmap string PyVal) : option PyVal := result !! "route".
Definition context_bundle (result : gmap string PyVal) : option PyVal := result !! "documents".
Definition answer (result : gmap string PyVal) : option PyVal := result !! "generation".
Definition execution_time (result : gmap string PyVal) : option PyVal :=
  result !! "execution_time".
Definition error_field (result : gmap string PyVal) : option PyVal := result !! "error".

(** The answer [execute] records for an exception. *)
Definition error_answer (e : Exn) : PyVal := VStr ("Error executing query: " +:+ e).

(** A result has the four entries of [execute], each of its kind. *)
Definition well_formed (result : gmap string PyVal) (elapsed : Q) : Prop :=
  dom result = ({["route"; "documents"; "generation"; "execution_time"]} : gset string) /\
  (exists label, route_label result = Some (VStr label)) /\
  (exists docs, context_bundle result = Some (VList docs)) /\
  (exists text, answer result = Some (VStr text)) /\
  execution_time result = Some (VFloat elapsed).

Definition is_node (name : string) (ev : Event) : bool :=
  match ev with
  | ENode n => String.eqb n name
  | _ => false
  end.

Definition is_classifier_call (ev : Event) : bool :=
  match ev with EClassify _ => true | _ => false end.
Definition is_retriever_call (ev : Event) : bool :=
  match ev with ERetrieve _ => true | _ => false end.
Definition is_wiki_call (ev : Event) : bool :=
  match ev with EWiki _ => true | _ => false end.
Definition is_generation_call (ev : Event) : bool :=
  match ev with EGenerate _ _ => true | _ => false end.

(** How many events of a kind a trace holds. *)
Definition count (p : Event -> bool) (evs : list Event) : nat :=
  length (List.filter p evs).

(** How many times a graph node was entered. *)
Definition visits (name : string) (evs : list Event) : nat := count (is_node name) evs.

(** *** The sentences of the specification that the code does not meet,
    as they are written *)

(** The route label names the branch taken, in every execution. *)
Definition route_names_branch (app : option StateGraph) (q : string) (t0 t1 : Q) : Prop :=
  forall result evs,
    execute app q t0 t1 [] = (inr result, evs) ->
    (route_label result = Some (VStr "vectorstore") <-> visits "retrieve" evs = 1) /\
    (route_label result = Some (VStr "wikipedia") <-> visits "wiki_search" evs = 1).

(** A result that is not an error and carries an answer. *)
Definition non_error_with_answer (result : gmap string PyVal) : Prop :=
  route_label result <> Some (VStr "error") /\
  (error_field result = None \/ error_field result = Some (VStr "")) /\
  exists text, answer result = Some (VStr text) /\ text <> "".

(** A result with a non-empty error field. *)
Definition has_error_field (result : gmap string PyVal) : Prop :=
  exists msg, error_field result = Some (VStr msg) /\ msg <> "".

(** The final result keeps the route and the bundle that the result
    dict held when the stream raised. *)
Definition retains_partial (app : option StateGraph) (q : string) (t0 t1 : Q) : Prop :=
  forall result evs,
    execute app q t0 t1 [] = (inr result, evs) ->
    route_label result = route_label (partial_result app q []) /\
    context_bundle result = context_bundle (partial_result app q []).

(** ** The scaffold backend (backend/app) *)

Module Backend.

(** *** models/schemas.py *)

Inductive QuerySource := AUTO | VECTOR | WIKIPEDIA | WEB.

(** [QuerySource.<member>.value]. *)
Definition QuerySource_value (s : QuerySource) : string :=
  match s with
  | AUTO => "auto"
  | VECTOR => "vector"
  | WIKIPEDIA => "wikipedia"
  | WEB => "web"
  end.

(** [QuerySource(v)]: the member with that value, if there is one. *)
Definition QuerySource_of_value (v : string) : option QuerySource :=
  if String.eqb v "auto" then Some AUTO
  else if String.eqb v "vector" then Some VECTOR
  else if String.eqb v "wikipedia" then Some WIKIPEDIA
  else if String.eqb v "web" then Some WEB
  else None.

Record QueryOptions := mkQueryOptions {
  top_k : Z;
  temperature : Q;
  hyde : bool
}.

Record QueryRequest := mkQueryRequest {
  query : string;
  user_id : option string;
  source : QuerySource;
  options : QueryOptions
}.

Record SourceResult := mkSourceResult {
  source_id : string;
  similarity_score : Q;
  snippet : string;
  url : option string
}.

Record QueryMetrics := mkQueryMetrics {
  elapsed_ms : Z;
  tokens : Z;
  embedding_ms : option Z;
  retrieval_ms : option Z;
  llm_ms : option Z
}.

Record QueryResponse := mkQueryResponse {
  id : string;
  response : string;
  sources : list SourceResult;
  metrics : QueryMetrics;
  routing_reason : string
}.

Record HealthResponse := mkHealthResponse {
  status : string;
  version : string;
  h_environment : string;
  mock_mode : list (string * bool);
  timestamp : Z
}.

(** A decoded request body before the field constraints are checked:
    every field has its declared type, and a field the body leaves
    out is [None]. *)
Record RawOptions := mkRawOptions {
  raw_top_k : option Z;
  raw_temperature : option Q;
  raw_hyde : option bool
}.

Record RawRequest := mkRawRequest {
  raw_query : option string;
  raw_user_id : option string;
  raw_source : option string;
  raw_options : option RawOptions
}.

(** [QueryOptions]: [top_k] in 1..20 (default 5), [temperature] in
    0.0..2.0 (default 0.0), [hyde] (default [False]). *)
Definition validate_options (raw : RawOptions) : option QueryOptions :=
  let k := default 5%Z (raw_top_k raw) in
  let t := default 0%Q (raw_temperature raw) in
  let h := default false (raw_hyde raw) in
  if (1 <=? k)%Z && (k <=? 20)%Z && Qle_bool 0 t && Qle_bool t 2
  then Some (mkQueryOptions k t h)
  else None.

Definition default_options : QueryOptions := mkQueryOptions 5 0 false.

(** [QueryRequest]: [query] required with [min_length=1] and
    [max_length=2000], both counted in characters; [source] a [QuerySource] value (default
    [AUTO]); [options] a valid [QueryOptions] (default factory). *)
Definition validate_request (raw : RawRequest) : option QueryRequest :=
  match raw_query raw with
  | None => None
  | Some q =>
      if (1 <=? py_len q) && (py_len q <=? 2000) then
        match
          match raw_source raw with
          | None => Some AUTO
          | Some v => QuerySource_of_value v
          end
        with
        | None => None
        | Some src =>
            match
              match raw_options raw with
              | None => Some default_options
              | Some o => validate_options o
              end
            with
            | None => None
            | Some opts => Some (mkQueryRequest q (raw_user_id raw) src opts)
            end
        end
      else None
  end.

(** *** core/config.py *)

Record Settings := mkSettings {
  app_name : string;
  app_version : string;
  debug : bool;
  environment : string;
  supabase_url : option string;
  supabase_anon_key : option string;
  supabase_service_role_key : option string;
  astra_db_application_token : option string;
  astra_db_id : option string;
  astra_db_region : option string;
  groq_api_key : option string;
  huggingface_api_key : option string;
  openai_api_key : option string;
  s3_endpoint : option string;
  s3_access_key : option string;
  s3_secret_key : option string;
  s3_bucket : option string;
  upstash_redis_rest_url : option string;
  upstash_redis_rest_token : option string;
  jwt_secret : option string;
  sentry_dsn : option string;
  sendgrid_api_key : option string;
  slack_webhook_url : option string
}.

(** [all([...])] over optional strings. *)
Definition all_truthy (l : list (option string)) : bool := forallb truthy l.

(** [Settings.get_mock_status], in the dict's insertion order. *)
Definition get_mock_status (self : Settings) : list (string * bool) :=
  [ ("supabase", negb (all_truthy [supabase_url self; supabase_anon_key self]));
    ("astra_db", negb (all_truthy [astra_db_application_token self; astra_db_id self]));
    ("groq", negb (truthy (groq_api_key self)));
    ("huggingface", negb (truthy (huggingface_api_key self)));
    ("redis", negb (all_truthy [upstash_redis_rest_url self; upstash_redis_rest_token self]));
    ("s3", negb (all_truthy [s3_endpoint self; s3_access_key self; s3_secret_key self])) ].

Definition env_var_mapping : list (string * list string) :=
  [ ("supabase", ["SUPABASE_URL"; "SUPABASE_ANON_KEY"]);
    ("astra_db", ["ASTRA_DB_APPLICATION_TOKEN"; "ASTRA_DB_ID"]);
    ("groq", ["GROQ_API_KEY"]);
    ("huggingface", ["HUGGINGFACE_API_KEY"]);
    ("redis", ["UPSTASH_REDIS_REST_URL"; "UPSTASH_REDIS_REST_TOKEN"]);
    ("s3", ["S3_ENDPOINT"; "S3_ACCESS_KEY"; "S3_SECRET_KEY"]) ].

(** [d.get(key, [])] on a dict given by its items. *)
Fixpoint items_get {A} (key : string) (items : list (string * list A)) : list A :=
  match items with
  | [] => []
  | (k, v) :: rest => if String.eqb k key then v else items_get key rest
  end.

(** [Settings.log_mock_mode_warnings]; [getenv] is [os.getenv]. *)
Definition log_mock_mode_warnings (getenv : string -> option string)
    (self : Settings) : list string :=
  let mock_status := get_mock_status self in
  flat_map
    (fun item : string * bool =>
       let '(service, is_mock) := item in
       if is_mock then
         flat_map
           (fun var => if negb (truthy (getenv var))
                       then ["MOCK MODE: missing " +:+ var] else [])
           (items_get service env_var_mapping)
       else [])
    mock_status.

(** [int(x)] of a float: truncation toward zero. *)
Definition int_of_float (x : Q) : Z := Z.quot (Qnum x) (Zpos (Qden x)).

Section Process.

(** What the process can read from outside: environment variables
    and the [.env] file. *)
Variable World : Type.
(** [os.getenv]. *)
Variable getenv : World -> string -> option string.
(** [Settings()]: pydantic-settings builds the value from the
    world, or raises a validation error. *)
Variable Settings_new : World -> Exn + Settings.

(** The one slot of the [lru_cache] around [get_settings]. *)
Definition Cache : Type := option Settings.

(** [get_settings], wrapped by [@lru_cache()]: a hit returns the
    stored value; a miss calls [Settings()] and stores what it
    returns; an exception stores nothing. *)
Definition get_settings (w : World) (cache : Cache) : (Exn + Settings) * Cache :=
  match cache with
  | Some s => (inr s, cache)
  | None =>
      match Settings_new w with
      | inr s => (inr s, Some s)
      | inl e => (inl e, None)
      end
  end.

(** *** api/v1/query.py *)

Definition MOCK_RESPONSE : QueryResponse :=
  mkQueryResponse
    "mock-query-0001"
    "This is a deterministic mock answer from IMSKOS scaffold."
    [ mkSourceResult "doc-1" (92 # 100) "Example matched text..."
        (Some "/storage/docs/doc1.pdf") ]
    (mkQueryMetrics 75 34 (Some 15%Z) (Some 35%Z) (Some 25%Z))
    "mock: scaffold route to vector (demo)".

(** What one call of a handler takes from outside: the world, the
    hex digits of [uuid.uuid4()], the readings of [time.time()] and
    the epoch second of [datetime.utcnow()]. *)
Record Ambient := mkAmbient {
  world : World;
  uuid_hex : string;
  time0 : Q;
  time1 : Q;
  utcnow : Z
}.

(** [execute_query]: the response, the warnings handed to the
    logger, and the cache afterwards.  The elapsed time is computed on
    the exact clock readings; the code's binary floating point can
    move the truncated product by one millisecond, and only its lower
    bound is stated below. *)
Definition execute_query (request : QueryRequest) (a : Ambient) (cache : Cache)
    : (Exn + QueryResponse * list string) * Cache :=
  match get_settings (world a) cache with
  | (inl e, cache') => (inl e, cache')
  | (inr settings, cache') =>
      let start_time := time0 a in
      let warnings := log_mock_mode_warnings (getenv (world a)) settings in
      let query_id := "query-" +:+ str_take 8 (uuid_hex a) in
      let elapsed := (int_of_float (Qmult (Qminus (time1 a) start_time) 1000) + 75)%Z in
      (inr (mkQueryResponse
              query_id
              (response MOCK_RESPONSE)
              (sources MOCK_RESPONSE)
              (mkQueryMetrics
                 elapsed
                 (tokens (metrics MOCK_RESPONSE))
                 (embedding_ms (metrics MOCK_RESPONSE))
                 (retrieval_ms (metrics MOCK_RESPONSE))
                 (llm_ms (metrics MOCK_RESPONSE)))
              ("mock: scaffold route to " +:+ QuerySource_value (source request)
                 +:+ " (demo)"),
            warnings),
       cache')
  end.

(** *** api/v1/health.py *)

Definition health_check (a : Ambient) (cache : Cache)
    : (Exn + HealthResponse) * Cache :=
  match get_settings (world a) cache with
  | (inl e, cache') => (inl e, cache')
  | (inr settings, cache') =>
      (inr (mkHealthResponse "healthy" (app_version settings)
              (environment settings) (get_mock_status settings) (utcnow a)),
       cache')
  end.

(** *** The HTTP surface *)

Inductive HttpResponse :=
| Http200 (body : QueryResponse)
| Http422                        (* request validation failed *)
| Http500 (e : Exn).             (* the handler raised *)

(** POST /api/v1/query: FastAPI validates the body against
    [QueryRequest] and calls the handler only with a valid
    request.  The second component counts the handler's runs. *)
Definition post_query (raw : RawRequest) (a : Ambient) (cache : Cache)
    : HttpResponse * nat * Cache :=
  match validate_request raw with
  | None => (Http422, 0, cache)
  | Some request =>
      match execute_query request a cache with
      | (inr (body, _), cache') => (Http200 body, 1, cache')
      | (inl e, cache') => (Http500 e, 1, cache')
      end
  end.

(** *** Process histories *)

(** A call that reads the settings. *)
Inductive Call :=
| CallGetSettings
| CallHealth
| CallQuery (request : QueryRequest).

(** What a call hands back. *)
Inductive Reply :=
| RSettings (s : Settings)
| RHealth (h : HealthResponse)
| RQuery (r : QueryResponse) (warnings : list string)
| RRaise (e : Exn).

(** One call against the process, from the given cache. *)
Definition step (c : Call) (a : Ambient) (cache : Cache) : Reply * Cache :=
  match c with
  | CallGetSettings =>
      match get_settings (world a) cache with
      | (inr s, cache') => (RSettings s, cache')
      | (inl e, cache') => (RRaise e, cache')
      end
  | CallHealth =>
      match health_check a cache with
      | (inr h, cache') => (RHealth h, cache')
      | (inl e, cache') => (RRaise e, cache')
      end
  | CallQuery request =>
      match execute_query request a cache with
      | (inr (r, warnings), cache') => (RQuery r warnings, cache')
      | (inl e, cache') => (RRaise e, cache')
      end
  end.

(** The replies along a history of calls, and the cache at its end. *)
Fixpoint run_history (hist : list (Call * Ambient)) (cache : Cache)
    : list Reply * Cache :=
  match hist with
  | [] => ([], cache)
  | (c, a) :: rest =>
      let '(r, cache') := step c a cache in
      let '(rs, cache'') := run_history rest cache' in
      (r :: rs, cache'')
  end.

(** A reply shows the configuration [s]: the settings themselves,
    the fields a health response copies from them, the warnings a
    query derives from them. *)
Definition shows (s : Settings) (r : Reply) : Prop :=
  match r with
  | RSettings s' => s' = s
  | RHealth h =>
      version h = app_version s /\
      h_environment h = environment s /\
      mock_mode h = get_mock_status s
  | RQuery _ warnings =>
      exists w, warnings = log_mock_mode_warnings (getenv w) s
  | RRaise _ => False
  end.

(** A reply that is an exception. *)
Definition raised (r : Reply) : Prop :=
  match r with
  | RRaise _ => True
  | _ => False
  end.

(** The routing explanation is the same for every request. *)
Definition same_routing_reason (raw1 raw2 : RawRequest) (a1 a2 : Ambient)
    (c1 c2 : Cache) : Prop :=
  forall b1 b2 n1 n2 c1' c2',
    post_query raw1 a1 c1 = (Http200 b1, n1, c1') ->
    post_query raw2 a2 c2 = (Http200 b2, n2, c2') ->
    routing_reason b1 = routing_reason b2.

End Process.

End Backend.

(** ** Stub providers and requests for the examples *)

Module Stubs.
Import Backend.

Definition passage (text : string) : Document := mkDocument text [].

Definition to_primary : PyVal -> Exn + string := fun _ => inr "vectorstore".
Definition to_secondary : PyVal -> Exn + string := fun _ => inr "wiki_search".
Definition classifier_down : PyVal -> Exn + string := fun _ => inl "Connection error.".
Definition off_enum : PyVal -> Exn + string := fun _ => inr "web_search".

Definition two_passages : PyVal -> Exn + list Document :=
  fun _ => inr [passage "Short-term memory"; passage "Long-term memory"].

Definition eight_passages : PyVal -> Exn + list Document :=
  fun _ => inr [passage "p1"; passage "p2"; passage "p3"; passage "p4";
                passage "p5"; passage "p6"; passage "p7"; passage "p8"].

Definition wiki_ok : PyVal -> Exn + string := fun _ => inr "Elon Musk is a businessman.".
Definition wiki_down : PyVal -> Exn + string := fun _ => inl "lookup failed".

Definition echo : string -> PyVal -> Exn + string :=
  fun context _ => inr ("ANSWER:" +:+ context).
Definition generation_down : string -> PyVal -> Exn + string :=
  fun _ _ => inl "Rate limit reached".
Definition generation_silent : string -> PyVal -> Exn + string :=
  fun _ _ => inr "".

Definition no_float : Q -> string := fun _ => "".

(** A process whose world is its environment. *)
Definition Env : Type := string -> option string.
Definition env_getenv : Env -> string -> option string := fun w => w.
Definition empty_env : Env := fun _ => None.
Definition groq_env : Env :=
  fun k => if String.eqb k "GROQ_API_KEY" then Some "gsk" else None.

Definition settings_of (w : Env) : Settings :=
  mkSettings "IMSKOS API" "1.1.0" false "development"
    (w "SUPABASE_URL") (w "SUPABASE_ANON_KEY") (w "SUPABASE_SERVICE_ROLE_KEY")
    (w "ASTRA_DB_APPLICATION_TOKEN") (w "ASTRA_DB_ID") (w "ASTRA_DB_REGION")
    (w "GROQ_API_KEY") (w "HUGGINGFACE_API_KEY") (w "OPENAI_API_KEY")
    (w "S3_ENDPOINT") (w "S3_ACCESS_KEY") (w "S3_SECRET_KEY") (w "S3_BUCKET")
    (w "UPSTASH_REDIS_REST_URL") (w "UPSTASH_REDIS_REST_TOKEN")
    (w "JWT_SECRET") (w "SENTRY_DSN") (w "SENDGRID_API_KEY") (w "SLACK_WEBHOOK_URL").

Definition load : Env -> Exn + Settings := fun w => inr (settings_of w).

Definition ambient (w : Env) : Ambient Env :=
  mkAmbient Env w "0123456789abcdef0123456789abcdef" 0 0 0.

Definition request_vector : QueryRequest :=
  mkQueryRequest "Test query" (Some "user-123") VECTOR (mkQueryOptions 10 (1 # 2) true).

(** The two bytes of a small e with an acute accent, one character. *)
Definition e_acute : string :=
  String (ascii_of_nat 195) (String (ascii_of_nat 169) EmptyString).

(** A body whose query is that character [n] times. *)
Definition raw_accented (n : nat) : RawRequest :=
  mkRawRequest (Some (str_mul e_acute n)) None None None.

Definition raw_test : RawRequest :=
  mkRawRequest (Some "Test query") None None None.
Definition raw_empty : RawRequest := mkRawRequest (Some "") None None None.
Definition raw_bad_source : RawRequest :=
  mkRawRequest (Some "Test query") None (Some "primary") None.
Definition raw_vector : RawRequest :=
  mkRawRequest (Some "Test query") (Some "user-123") (Some "vector")
    (Some (mkRawOptions (Some 10%Z) (Some (1 # 2)%Q) (Some true))).

End Stubs.

(** An event that hands a question to a provider hands it [question]. *)
Definition asks (question : PyVal) (ev : Event) : Prop :=
  match ev with
  | EClassify v => v = question
  | ERetrieve v => v = question
  | EWiki v => v = question
  | EGenerate _ v => v = question
  | ENode _ => True
  end.

(** ** The rest of app.py: configuration, indexing, display *)

Module App.

(** What the page shows, in order: [st.error], [st.info],
    [st.warning], and the messages handed to a progress callback. *)
Inductive Ui :=
| StError (msg : string)
| StInfo (msg : string)
| StWarning (msg : string)
| Progress (msg : string).

Definition is_warning (u : Ui) : bool :=
  match u with StWarning _ => true | _ => false end.
Definition is_progress (u : Ui) : bool :=
  match u with Progress _ => true | _ => false end.

(** How a function that may call [st.stop()] ends. *)
Inductive Flow (A : Type) :=
| Stopped
| Returned (a : A).
Arguments Stopped {A}.
Arguments Returned {A} a.

(** The text of the [st.info] call of [load_env_variables]. *)
Definition setup_instructions : string :=
  "" +:+ nl +:+
  "            **Setup Instructions:**" +:+ nl +:+
  "            1. **Local Development:** Create a `.env` file with your credentials" +:+ nl +:+
  "            2. **Streamlit Cloud:** Add secrets in the app settings" +:+ nl +:+
  "            " +:+ nl +:+
  "            Required variables:" +:+ nl +:+
  "            - `ASTRA_DB_APPLICATION_TOKEN` - Get from [DataStax Astra](https://astra.datastax.com)" +:+ nl +:+
  "            - `ASTRA_DB_ID` - Your Astra DB database ID" +:+ nl +:+
  "            - `GROQ_API_KEY` - Get from [Groq Console](https://console.groq.com)" +:+ nl +:+
  "            ".

Section Config.

(** The [try] block of [get_secret] on [st.secrets]: it raises, or the
    key is not there ([None], also when [st] has no [secrets]), or it
    gives the stored value. *)
Variable secrets : string -> Exn + option string.
(** [os.getenv]. *)
Variable getenv : string -> option string.

(** [get_secret], local to [Config.load_env_variables]. *)
Definition get_secret (key : string) : option string :=
  match secrets key with
  | inr (Some v) => Some v
  | inr None => getenv key
  | inl _ => getenv key
  end.

(** The dict [required_vars], by its items in insertion order. *)
Definition required_vars : list (string * option string) :=
  [ ("ASTRA_DB_APPLICATION_TOKEN", get_secret "ASTRA_DB_APPLICATION_TOKEN");
    ("ASTRA_DB_ID", get_secret "ASTRA_DB_ID");
    ("GROQ_API_KEY", get_secret "GROQ_API_KEY") ].

(** [[key for key, value in required_vars.items() if not value]]. *)
Definition missing_vars : list string :=
  map fst (List.filter (fun kv : string * option string => negb (truthy kv.2))
             required_vars).

(** [Config.load_env_variables]: what it shows and how it ends. *)
Definition load_env_variables : list Ui * Flow (list (string * option string)) :=
  match missing_vars with
  | [] => ([], Returned required_vars)
  | _ :: _ =>
      ([StError ("⚠️ Missing environment variables: " +:+ join ", " missing_vars);
        StInfo setup_instructions],
       Stopped)
  end.

End Config.

(** [Config.get_default_urls]. *)
Definition get_default_urls : list string :=
  [ "https://lilianweng.github.io/posts/2023-06-23-agent/";
    "https://lilianweng.github.io/posts/2023-03-15-prompt-engineering/";
    "https://lilianweng.github.io/posts/2023-10-25-adv-attack-llm/" ].

Section KnowledgeBase.

(** [WebBaseLoader(url).load()]. *)
Variable web_load : string -> Exn + list Document.
(** [RecursiveCharacterTextSplitter.from_tiktoken_encoder(chunk_size=500,
    chunk_overlap=50).split_documents]. *)
Variable split_documents : list Document -> Exn + list Document.
(** The [for] loop of [load_and_process_documents] from position [i]
    on: [docs] is the list being extended, [ui] what has been shown.
    [callback] tells whether a [progress_callback] was given; a
    callback only records its message. *)
Fixpoint load_loop (callback : bool) (total : nat) (i : nat) (urls : list string)
    (docs : list Document) (ui : list Ui) : list Document * list Ui :=
  match urls with
  | [] => (docs, ui)
  | url :: rest =>
      match web_load url with
      | inr loaded =>
          load_loop callback total (S i) rest (docs ++ loaded)
            (ui ++ if callback
                   then [Progress ("Loaded " +:+ str_nat (i + 1) +:+ "/" +:+
                                   str_nat total +:+ " documents")]
                   else [])
      | inl e =>
          load_loop callback total (S i) rest docs
            (ui ++ [StWarning ("Failed to load " +:+ url +:+ ": " +:+ e)])
      end
  end.

(** [KnowledgeBaseManager.load_and_process_documents]. *)
Definition load_and_process_documents (urls : list string) (callback : bool)
    : list Ui * (Exn + list Document) :=
  let ui := if callback then [Progress "Loading documents from URLs..."] else [] in
  let '(docs, ui) := load_loop callback (length urls) 0 urls [] ui in
  let ui := ui ++ if callback then [Progress "Splitting documents into chunks..."] else [] in
  (ui, split_documents docs).

(** What one address adds to the documents, and what it makes the
    page show, when it stands at position [i] of [total]. *)
Definition loaded_from (url : string) : list Document :=
  match web_load url with
  | inr loaded => loaded
  | inl _ => []
  end.

Definition failed (url : string) : bool :=
  match web_load url with
  | inr _ => false
  | inl _ => true
  end.

Definition shown_for (callback : bool) (total i : nat) (url : string) : list Ui :=
  match web_load url with
  | inr _ =>
      if callback
      then [Progress ("Loaded " +:+ str_nat (i + 1) +:+ "/" +:+ str_nat total +:+
                      " documents")]
      else []
  | inl e => [StWarning ("Failed to load " +:+ url +:+ ": " +:+ e)]
  end.

End KnowledgeBase.

(** *** What [render_query_tab] shows and records for a result *)

(** [route_name], from [result["route"]]. *)
Definition route_name (route : PyVal) : string :=
  match route with
  | VStr r => if String.eqb r "vectorstore" then "Vector Store" else "Wikipedia"
  | _ => "Wikipedia"
  end.

(** [num_docs], from [result['documents']]. *)
Definition num_docs (documents : PyVal) : nat :=
  match documents with
  | VList l => length l
  | _ => 1
  end.

(** The value stored under ["response_preview"]:
    [generation[:100] + "..." if len(generation) > 100 else generation]. *)
Definition response_preview (generation : string) : string :=
  if 100 <? py_len generation
  then py_take 100 generation +:+ "..."
  else generation.

(** One dict of [st.session_state.query_history]. *)
Record HistoryEntry := mkHistoryEntry {
  h_query : string;
  h_route : string;
  h_timestamp : string;
  h_execution_time : Q;
  h_response_preview : string
}.

(** The dict that [render_query_tab] appends for a result whose
    entries have the kinds [execute] gives them; [now] is
    [datetime.now().strftime("%H:%M:%S")]. *)
Definition history_entry (query : string) (result : gmap string PyVal) (now : string)
    : option HistoryEntry :=
  match result !! "route", result !! "execution_time", result !! "generation" with
  | Some route, Some (VFloat t), Some (VStr generation) =>
      Some (mkHistoryEntry query (route_name route) now t (response_preview generation))
  | _, _, _ => None
  end.

(** *** render_analytics_tab *)




End App.

(** ** The rest of the backend: application factory and lifespan *)

Module BackendApp.
Import Backend.

(** A record handed to the logger. *)
Inductive LogRecord :=
| LogInfo (msg : string)
| LogWarning (msg : string).

(** The [FastAPI] application that [create_app] configures. *)
Record FastAPI := mkFastAPI {
  title : string;
  description : string;
  api_version : string;
  docs_url : string;
  redoc_url : string;
  openapi_url : string;
  allow_origins : list string;
  allow_credentials : bool;
  allow_methods : list string;
  allow_headers : list string;
  routes : list (string * string)
}.

(** The [description] argument of [create_app]. *)
Definition app_description : string :=
  "" +:+ nl +:+
  "## Intelligent Multi-Source Knowledge Orchestration System" +:+ nl +:+
  "" +:+ nl +:+
  "IMSKOS is a production-quality RAG (Retrieval-Augmented Generation) system that combines:" +:+ nl +:+
  "" +:+ nl +:+
  "- **Adaptive Query Routing**: LLM-powered routing to optimal data sources" +:+ nl +:+
  "- **Vector Store Retrieval**: DataStax Astra DB for semantic search" +:+ nl +:+
  "- **External Knowledge**: Wikipedia and web search integration" +:+ nl +:+
  "- **Streaming Responses**: Server-Sent Events for real-time token streaming" +:+ nl +:+
  "" +:+ nl +:+
  "### Features" +:+ nl +:+
  "" +:+ nl +:+
  "- 🔄 Intelligent query routing (Groq LLM with fallback heuristics)" +:+ nl +:+
  "- 🗄️ Scalable vector storage (Astra DB)" +:+ nl +:+
  "- 📚 Multi-source knowledge fusion" +:+ nl +:+
  "- ⚡ High-performance inference" +:+ nl +:+
  "- 📊 Query analytics and monitoring" +:+ nl +:+
  "" +:+ nl +:+
  "### Mock Mode" +:+ nl +:+
  "" +:+ nl +:+
  "When API keys are missing, the system runs in **MOCK MODE** with deterministic responses." +:+ nl +:+
  "Check `/health` endpoint for mock mode status." +:+ nl +:+
  "        ".

(** [api_router] of api/v1/__init__.py: the health router, then the
    query router. *)
Definition api_router : list (string * string) :=
  [("GET", "/health"); ("POST", "/api/v1/query")].

Section Startup.

Variable World : Type.
Variable getenv : World -> string -> option string.
Variable Settings_new : World -> Exn + Settings.

(** [create_app]: it reads the settings, so it fills the cache. *)
Definition create_app (w : World) (cache : Cache) : (Exn + FastAPI) * Cache :=
  match get_settings World Settings_new w cache with
  | (inl e, cache') => (inl e, cache')
  | (inr settings, cache') =>
      (inr (mkFastAPI
              "IMSKOS API"
              app_description
              (app_version settings)
              "/docs" "/redoc" "/openapi.json"
              [ "http://localhost:3000"; "http://localhost:8501";
                "http://127.0.0.1:3000"; "http://127.0.0.1:8501" ]
              true ["*"] ["*"]
              api_router),
       cache')
  end.

(** [[k for k, v in mock_status.items() if v]]. *)
Definition mock_services (mock_status : list (string * bool)) : list string :=
  map fst (List.filter snd mock_status).

(** [lifespan] up to its [yield]: the records logged at startup. *)
Definition lifespan_startup (w : World) (cache : Cache)
    : (Exn + list LogRecord) * Cache :=
  match get_settings World Settings_new w cache with
  | (inl e, cache') => (inl e, cache')
  | (inr settings, cache') =>
      let warnings := log_mock_mode_warnings (getenv w) settings in
      let mock_status := get_mock_status settings in
      (inr ([ LogInfo ("Starting IMSKOS API v" +:+ app_version settings);
              LogInfo ("Environment: " +:+ environment settings) ]
            ++ map LogWarning warnings
            ++ match mock_services mock_status with
               | [] => []
               | services =>
                   [LogInfo ("Running in MOCK MODE for: " +:+ join ", " services)]
               end),
       cache')
  end.

(** [lifespan] after its [yield]. *)
Definition lifespan_shutdown : list LogRecord :=
  [LogInfo "Shutting down IMSKOS API"].

End Startup.

End BackendApp.

(** ** More stubs for the examples *)

Module MoreStubs.
Import Backend Stubs App.

Definition retriever_down : PyVal -> Exn + list Document :=
  fun _ => inl "Cassandra unavailable".
Definition no_passages : PyVal -> Exn + list Document := fun _ => inr [].

(** Secrets that hold an empty Groq key; an environment that holds
    all three variables. *)
Definition secrets_empty_groq : string -> Exn + option string :=
  fun k => if String.eqb k "GROQ_API_KEY" then inr (Some "") else inr None.
Definition secrets_unreadable : string -> Exn + option string :=
  fun _ => inl "No secrets found".
Definition full_env : string -> option string := fun k => Some ("value-of-" +:+ k).

(** A loader for which one address fails. *)
Definition web_load_stub : string -> Exn + list Document :=
  fun url => if String.eqb url "bad" then inl "404" else inr [passage url].
Definition split_stub : list Document -> Exn + list Document := fun docs => inr docs.

(** A process whose [Settings()] fails in one world and works in the
    other. *)
Definition flaky_load : bool -> Exn + Settings :=
  fun ok => if ok then inr (settings_of empty_env) else inl "validation error".
Definition flaky_getenv : bool -> string -> option string := fun _ _ => None.

Definition flaky_ambient (ok : bool) : Ambient bool :=
  mkAmbient bool ok "0123456789abcdef0123456789abcdef" 0 (1 # 100) 0.

End MoreStubs.

(** * Properties *)

(** ** The stages and the compiled graph *)

Section WorkflowFacts.

Context (question_router : PyVal -> Exn + string)
        (retriever : PyVal -> Exn + list Document)
        (wiki : PyVal -> Exn + string)
        (generation_chain : string -> PyVal -> Exn + string)
        (float_repr : Q -> string).

Local Abbreviation G :=
  (build_graph question_router retriever wiki generation_chain float_repr).
Local Abbreviation context_of := (build_context float_repr).
Local Abbreviation secondary_doc := (wiki_document wiki).

Lemma pregel_unfold g fuel cur state tr :
  pregel g (S fuel) cur state tr =
  match successor g cur state tr with
  | (inl e, tr1) => (([], Some e), tr1)
  | (inr dst, tr1) =>
      if String.eqb dst END then (([], None), tr1)
      else
        match nodes g !! dst with
        | None => (([], Some (key_error dst)), tr1)
        | Some fn =>
            match fn state (tr1 ++ [ENode dst]) with
            | (inl e, tr2) => (([], Some e), tr2)
            | (inr update, tr2) =>
                let '((outs, exc), tr3) := pregel g fuel dst (update ∪ state) tr2 in
                (([(dst, update)] :: outs, exc), tr3)
            end
        end
  end.
Proof. reflexivity. Qed.

(** The classifier stage: one call of the router chain, whose answer
    [route_of_source] turns into a path. *)
Lemma route_question_run state qv tr :
  state !! "question" = Some qv ->
  route_question question_router state tr =
  match question_router qv with
  | inl e => (inl e, tr ++ [EClassify qv])
  | inr source => (inr (route_of_source source), tr ++ [EClassify qv])
  end.
Proof.
  intros Hq. unfold route_question, getitem, route, call, bind.
  rewrite Hq. simpl. destruct (question_router qv); reflexivity.
Qed.

(** The primary stage hands on what the retriever returns, or raises
    what it raises. *)
Lemma retrieve_run state qv tr :
  state !! "question" = Some qv ->
  retrieve retriever state tr =
  match retriever qv with
  | inl e => (inl e, tr ++ [ERetrieve qv])
  | inr docs => (inr (retrieval_update "vectorstore" qv docs), tr ++ [ERetrieve qv])
  end.
Proof.
  intros Hq. unfold retrieve, getitem, call, bind.
  rewrite Hq. simpl. destruct (retriever qv); reflexivity.
Qed.

(** The secondary stage never raises: it hands on one passage, the
    summary or the placeholder. *)
Lemma wiki_search_run state qv tr :
  state !! "question" = Some qv ->
  wiki_search wiki state tr =
  (inr (retrieval_update "wikipedia" qv [secondary_doc qv]), tr ++ [EWiki qv]).
Proof.
  intros Hq. unfold wiki_search, wiki_document, getitem, try_except, call, bind.
  rewrite Hq. simpl. destruct (wiki qv); reflexivity.
Qed.

(** The generation stage calls the chain once, on the context built
    from the bundle in the state. *)
Lemma generate_run state qv docs label tr :
  state !! "question" = Some qv ->
  state !! "documents" = Some (VList docs) ->
  state !! "route" = Some (VStr label) ->
  generate generation_chain float_repr state tr =
  match generation_chain (context_of (VList docs)) qv with
  | inl e => (inl e, tr ++ [EGenerate (context_of (VList docs)) qv])
  | inr g =>
      (inr (generate_update label qv docs g),
       tr ++ [EGenerate (context_of (VList docs)) qv])
  end.
Proof.
  intros Hq Hd Hr. unfold generate, generate_response, getitem, call, bind.
  rewrite Hq. simpl. rewrite Hd. simpl. rewrite Hr.
  destruct (generation_chain _ qv); reflexivity.
Qed.

Lemma successor_start state tr :
  successor G START state tr =
  match route_question question_router state tr with
  | (inl e, tr1) => (inl e, tr1)
  | (inr r, tr1) =>
      match
        (<["vectorstore" := "retrieve"]>
           (<["wiki_search" := "wiki_search"]> (∅ : gmap string string))) !! r
      with
      | Some dst => (inr dst, tr1)
      | None => (inl (key_error r), tr1)
      end
  end.
Proof.
  unfold successor.
  change (branches G !! START) with
    (Some (route_question question_router,
           <["vectorstore" := "retrieve"]>
             (<["wiki_search" := "wiki_search"]> (∅ : gmap string string)))).
  unfold bind.
  destruct (route_question question_router state tr) as [[e|r] tr1]; [reflexivity|].
  destruct (_ !! r); reflexivity.
Qed.

Lemma successor_retrieval cur state tr :
  cur = "retrieve" \/ cur = "wiki_search" ->
  successor G cur state tr = (inr "generate", tr).
Proof. intros [-> | ->]; reflexivity. Qed.

Lemma successor_generate state tr :
  successor G "generate" state tr = (inr END, tr).
Proof. reflexivity. Qed.

(** The stream of the compiled graph, for the inputs of [execute]. *)
Lemma stream_build_graph q tr :
  stream (Some G) (dict [("question", VStr q)]) tr =
  stream_cases question_router retriever wiki generation_chain float_repr q tr.
Proof.
  unfold stream, stream_cases, recursion_limit.
  rewrite pregel_unfold, successor_start.
  rewrite (route_question_run _ (VStr q)) by reflexivity.
  destruct (question_router (VStr q)) as [e|src]; [reflexivity|].
  unfold route_of_source.
  destruct (String.eqb src "wiki_search").
  - change (_ !! "wiki_search") with (Some "wiki_search").
    change (String.eqb "wiki_search" END) with false. cbv iota.
    change (nodes G !! "wiki_search") with (Some (wiki_search wiki)). cbv iota.
    rewrite (wiki_search_run _ (VStr q)) by reflexivity.
    rewrite pregel_unfold, successor_retrieval by auto.
    change (String.eqb "generate" END) with false. cbv iota.
    change (nodes G !! "generate") with (Some (generate generation_chain float_repr)).
    cbv iota.
    rewrite (generate_run _ (VStr q) [secondary_doc (VStr q)] "wikipedia")
      by reflexivity.
    cbv zeta.
    destruct (generation_chain _ (VStr q)) as [e|g].
    + rewrite <- !app_assoc. reflexivity.
    + rewrite pregel_unfold, successor_generate.
      change (String.eqb END END) with true. cbv iota.
      rewrite <- !app_assoc. reflexivity.
  - change (_ !! "vectorstore") with (Some "retrieve").
    change (String.eqb "retrieve" END) with false. cbv iota.
    change (nodes G !! "retrieve") with (Some (retrieve retriever)). cbv iota.
    rewrite (retrieve_run _ (VStr q)) by reflexivity.
    destruct (retriever (VStr q)) as [e|docs].
    + rewrite <- !app_assoc. reflexivity.
    + rewrite pregel_unfold, successor_retrieval by auto.
      change (String.eqb "generate" END) with false. cbv iota.
      change (nodes G !! "generate") with (Some (generate generation_chain float_repr)).
      cbv iota.
      rewrite (generate_run _ (VStr q) docs "vectorstore") by reflexivity.
      cbv zeta.
      destruct (generation_chain _ (VStr q)) as [e|g].
      * rewrite <- !app_assoc. reflexivity.
      * rewrite pregel_unfold, successor_generate.
        change (String.eqb END END) with true. cbv iota.
        rewrite <- !app_assoc. reflexivity.
Qed.

(** ** The orchestrator *)

Local Abbreviation app_of :=
  (workflow_app question_router retriever wiki generation_chain float_repr).

Local Ltac by_cases q :=
  rewrite ?stream_build_graph; unfold stream_cases;
  destruct (question_router (VStr q)) as [?e|?src] eqn:?Hrouter;
  [| destruct (String.eqb _ "wiki_search") eqn:?Hsrc;
     [| destruct (retriever (VStr q)) as [?e|?docs] eqn:?Hretr ];
     try destruct (generation_chain _ (VStr q)) as [?e|?g] eqn:?Hgen ].

Local Ltac settle :=
  repeat match goal with
    | |- _ /\ _ => split
    | |- _ <-> _ => split
    | |- _ -> _ => intro
    | |- forall _, _ => intro
    end;
  first
    [ reflexivity
    | discriminate
    | left; reflexivity
    | right; eexists; split; reflexivity
    | vm_compute; lia
    | exfalso; vm_compute in *; congruence ].

(** C1. For every question, [execute] returns: it never raises past
    the orchestrator, before or after [build_graph].  What it returns
    holds a route, a documents list, a generation string and the
    recorded execution time, and an exception that ends the stream is
    turned into the result: the answer carries its message and the
    route is the error sentinel. *)
Theorem C1_execute_never_raises (built : bool) (q : string) (t0 t1 : Q)
    (tr : list Event) :
  exists result evs,
    execute (app_of built) q t0 t1 tr = (inr result, tr ++ evs) /\
    well_formed result (Qminus t1 t0) /\
    (forall e, stream_exception (app_of built) q tr = Some e ->
       answer result = Some (error_answer e) /\
       route_label result = Some (VStr "error")).
Proof.
  destruct built; unfold workflow_app, execute, stream_exception.
  - by_cases q.
    all: eexists _, _; split; [reflexivity|].
    all: split; [ repeat split; try (eexists; reflexivity); try reflexivity | ].
    all: try (intros e' [=]; subst; split; reflexivity).
    all: try (intros e' [=]).
    all: vm_compute; reflexivity.
  - exists (<["execution_time" := VFloat (Qminus t1 t0)]>
              (on_exception "'NoneType' object has no attribute 'stream'" initial_result)), [].
    rewrite app_nil_r. split; [reflexivity|]. split.
    + repeat split; try (eexists; reflexivity); reflexivity.
    + intros e' [=]; subst. split; reflexivity.
Qed.

(** C2, amended. In every execution at most one of the two retrieval
    stages is entered, and exactly one when the stream ends without
    an exception.  The bundle in the result comes from the provider
    of the stage entered and the other provider is not called.  When
    the stream ends without an exception the label is "vectorstore"
    exactly when the primary stage was entered and "wikipedia"
    exactly when the secondary stage was; a label of either kind
    always names the stage entered; and when the stream ends with an
    exception the label is "error", whichever stage was entered. *)
Theorem C2_one_retrieval_stage (q : string) (t0 t1 : Q) (tr : list Event) :
  exists result evs,
    execute (Some G) q t0 t1 tr = (inr result, tr ++ evs) /\
    visits "retrieve" evs + visits "wiki_search" evs <= 1 /\
    (stream_exception (Some G) q tr = None ->
       visits "retrieve" evs + visits "wiki_search" evs = 1) /\
    (visits "retrieve" evs = 1 ->
       count is_wiki_call evs = 0 /\
       (context_bundle result = Some (VList []) \/
        exists docs, retriever (VStr q) = inr docs /\
                     context_bundle result = Some (VList docs))) /\
    (visits "wiki_search" evs = 1 ->
       count is_retriever_call evs = 0 /\
       context_bundle result = Some (VList [secondary_doc (VStr q)])) /\
    (stream_exception (Some G) q tr = None ->
       (route_label result = Some (VStr "vectorstore") <-> visits "retrieve" evs = 1) /\
       (route_label result = Some (VStr "wikipedia") <-> visits "wiki_search" evs = 1)) /\
    (route_label result = Some (VStr "vectorstore") -> visits "retrieve" evs = 1) /\
    (route_label result = Some (VStr "wikipedia") -> visits "wiki_search" evs = 1) /\
    (forall e, stream_exception (Some G) q tr = Some e ->
       route_label result = Some (VStr "error")).
Proof.
  unfold execute, stream_exception.
  by_cases q.
  all: eexists _, _; split; [reflexivity|].
  all: settle.
Qed.

(** C4, amended. When the question is routed to the secondary source
    and the Wikipedia lookup raises, the secondary stage returns
    normally with one placeholder passage that says no results were
    found, the generation chain is then called on the context built
    from that passage, and the result holds the placeholder and has
    no error entry.  When the generation chain returns a text, the
    route is "wikipedia" and the answer is that text, so the result
    is a non-error one with an answer whenever the text is not
    empty; when the chain raises too, the result is the error one. *)
Theorem C4_secondary_failure_absorbed (q : string) (t0 t1 : Q) (tr : list Event)
    (e : Exn) :
  question_router (VStr q) = inr "wiki_search" ->
  wiki (VStr q) = inl e ->
  (forall state tr0,
     state !! "question" = Some (VStr q) ->
     wiki_search wiki state tr0 =
     (inr (retrieval_update "wikipedia" (VStr q) [wiki_placeholder e]),
      tr0 ++ [EWiki (VStr q)])) /\
  String.prefix "Wikipedia search returned no results"
    (page_content (wiki_placeholder e)) = true /\
  exists result,
    execute (Some G) q t0 t1 tr =
    (inr result,
     tr ++ [EClassify (VStr q); ENode "wiki_search"; EWiki (VStr q); ENode "generate";
            EGenerate (context_of (VList [wiki_placeholder e])) (VStr q)]) /\
    context_bundle result = Some (VList [wiki_placeholder e]) /\
    error_field result = None /\
    (forall g,
       generation_chain (context_of (VList [wiki_placeholder e])) (VStr q) = inr g ->
       route_label result = Some (VStr "wikipedia") /\
       answer result = Some (VStr g) /\
       (g <> "" -> non_error_with_answer result)) /\
    (forall e',
       generation_chain (context_of (VList [wiki_placeholder e])) (VStr q) = inl e' ->
       route_label result = Some (VStr "error") /\
       answer result = Some (error_answer e')).
Proof.
  intros Hrouter Hwiki. split; [|split; [reflexivity|]].
  - intros state tr0 Hq. rewrite (wiki_search_run _ (VStr q)) by exact Hq.
    unfold wiki_document. rewrite Hwiki. reflexivity.
  - unfold execute. rewrite stream_build_graph. unfold stream_cases.
    rewrite Hrouter. change (String.eqb "wiki_search" "wiki_search") with true.
    cbv iota zeta. unfold wiki_document. rewrite Hwiki.
    destruct (generation_chain _ (VStr q)) as [e'|g].
    + eexists; split; [reflexivity|].
      split; [reflexivity|]. split; [reflexivity|].
      split; [intros g [=] | intros e'' [= <-]; split; reflexivity].
    + eexists; split; [reflexivity|].
      split; [reflexivity|]. split; [reflexivity|].
      split; [| intros e' [=]].
      intros g' [= <-]. split; [reflexivity|]. split; [reflexivity|].
      intros Hg. split; [intros [=]|]. split; [left; reflexivity|].
      exists g. split; [reflexivity | exact Hg].
Qed.

(** C5, amended. When the route classifier raises, the stream ends
    with that exception after the single classifier call: no
    retrieval stage and no generation stage is entered and none of
    their providers is called.  The result has the route "error", an
    answer that carries the exception's message, an empty documents
    list, and no separate error entry. *)
Theorem C5_classifier_failure (q : string) (t0 t1 : Q) (tr : list Event) (e : Exn) :
  question_router (VStr q) = inl e ->
  exists result evs,
    execute (Some G) q t0 t1 tr = (inr result, tr ++ evs) /\
    stream_exception (Some G) q tr = Some e /\
    evs = [EClassify (VStr q)] /\
    count is_classifier_call evs = 1 /\
    visits "retrieve" evs = 0 /\ visits "wiki_search" evs = 0 /\
    visits "generate" evs = 0 /\
    count is_retriever_call evs = 0 /\ count is_wiki_call evs = 0 /\
    count is_generation_call evs = 0 /\
    route_label result = Some (VStr "error") /\
    answer result = Some (error_answer e) /\
    context_bundle result = Some (VList []) /\
    error_field result = None.
Proof.
  intros Hrouter. unfold execute, stream_exception.
  rewrite stream_build_graph. unfold stream_cases. rewrite Hrouter.
  eexists _, _. split; [reflexivity|]. repeat split.
Qed.

(** C6, amended. When classification and retrieval complete and the
    generation chain then raises, the result dict held the stage's
    route label and bundle at that moment; the result returned keeps
    the bundle and carries the exception's message in the answer,
    its route is overwritten with "error", and it has no separate
    error entry. *)
Theorem C6_generation_failure (q : string) (t0 t1 : Q) (tr : list Event)
    (label : string) (docs : list Document) (e : Exn) :
  retrieval_outcome question_router retriever wiki (VStr q) = Some (label, docs) ->
  generation_chain (context_of (VList docs)) (VStr q) = inl e ->
  exists result evs,
    execute (Some G) q t0 t1 tr = (inr result, tr ++ evs) /\
    stream_exception (Some G) q tr = Some e /\
    route_label (partial_result (Some G) q tr) = Some (VStr label) /\
    context_bundle (partial_result (Some G) q tr) = Some (VList docs) /\
    context_bundle result = Some (VList docs) /\
    answer result = Some (error_answer e) /\
    route_label result = Some (VStr "error") /\
    error_field result = None.
Proof.
  unfold retrieval_outcome, execute, stream_exception, partial_result.
  intros Hout Hfail. rewrite stream_build_graph. unfold stream_cases.
  destruct (question_router (VStr q)) as [?|src]; [discriminate|].
  destruct (String.eqb src "wiki_search").
  - injection Hout as <- <-. rewrite Hfail.
    eexists _, _. split; [reflexivity|]. repeat split.
  - destruct (retriever (VStr q)) as [?|docs']; [discriminate|].
    injection Hout as <- <-. rewrite Hfail.
    eexists _, _. split; [reflexivity|]. repeat split.
Qed.

(** C7. [route_question] answers "wiki_search" exactly when the
    classifier's datasource is "wiki_search" and "vectorstore" for
    every other value, so a datasource outside the two-value enum is
    sent to the primary stage. *)
Theorem C7_route_question_default (source : string) :
  (route_of_source source = "wiki_search" <-> source = "wiki_search") /\
  (source <> "wiki_search" -> route_of_source source = "vectorstore") /\
  (forall state qv tr,
     state !! "question" = Some qv ->
     question_router qv = inr source ->
     route_question question_router state tr =
     (inr (route_of_source source), tr ++ [EClassify qv]) /\
     successor G START state tr =
     (inr (if String.eqb source "wiki_search" then "wiki_search" else "retrieve"),
      tr ++ [EClassify qv])).
Proof.
  unfold route_of_source.
  destruct (String.eqb_spec source "wiki_search") as [-> | Hne].
  - split; [tauto|]. split; [congruence|].
    intros state qv tr Hq Hr. rewrite successor_start.
    rewrite (route_question_run _ qv) by exact Hq. rewrite Hr.
    split; reflexivity.
  - split; [split; [discriminate | contradiction]|]. split; [reflexivity|].
    intros state qv tr Hq Hr. rewrite successor_start.
    rewrite (route_question_run _ qv) by exact Hq. rewrite Hr.
    unfold route_of_source.
    destruct (String.eqb_spec source "wiki_search"); [contradiction|].
    split; reflexivity.
Qed.

(** The labelled passages of a bundle, one by one. *)
Lemma context_blocks_lookup (docs : list Document) (i : nat) (d : Document) :
  i < 5 -> docs !! i = Some d ->
  context_blocks docs !! i = Some (format_doc i d).
Proof.
  intros Hi Hd. unfold context_blocks.
  rewrite list_lookup_imap, lookup_take_lt by exact Hi.
  rewrite Hd. reflexivity.
Qed.

Lemma context_blocks_length (docs : list Document) :
  length (context_blocks docs) = Nat.min 5 (length docs).
Proof. unfold context_blocks. rewrite length_imap. apply length_take. Qed.

(** C3. The generation stage calls the chain on a context that joins
    the labelled passages of the bundle: there are at most five of
    them, the i-th (from 1) is "Document i:" followed by the content
    of the i-th passage of the bundle, in bundle order, and a passage
    after the fifth changes nothing.  For a bundle of eight passages
    the context is built from passages 1 to 5 exactly. *)
Theorem C3_generation_context_first_five (docs : list Document) :
  (forall question tr,
     generate_response generation_chain float_repr question (VList docs) tr =
     (generation_chain (join (nl +:+ nl) (context_blocks docs)) question,
      tr ++ [EGenerate (join (nl +:+ nl) (context_blocks docs)) question])) /\
  length (context_blocks docs) = Nat.min 5 (length docs) /\
  length (context_blocks docs) <= 5 /\
  (forall i d,
     i < 5 -> docs !! i = Some d ->
     context_blocks docs !! i =
     Some ("Document " +:+ str_nat (S i) +:+ ":" +:+ nl +:+ page_content d)) /\
  (forall i, 5 <= i -> context_blocks docs !! i = None) /\
  (forall extra,
     5 <= length docs ->
     context_of (VList (docs ++ extra)) = context_of (VList docs)) /\
  (forall d1 d2 d3 d4 d5 d6 d7 d8,
     context_of (VList [d1; d2; d3; d4; d5; d6; d7; d8]) =
     "Document 1:" +:+ nl +:+ page_content d1 +:+ nl +:+ nl +:+
     "Document 2:" +:+ nl +:+ page_content d2 +:+ nl +:+ nl +:+
     "Document 3:" +:+ nl +:+ page_content d3 +:+ nl +:+ nl +:+
     "Document 4:" +:+ nl +:+ page_content d4 +:+ nl +:+ nl +:+
     "Document 5:" +:+ nl +:+ page_content d5).
Proof.
  split; [reflexivity|].
  split; [apply context_blocks_length|].
  split; [rewrite context_blocks_length; lia|].
  split.
  { intros i d Hi Hd. rewrite (context_blocks_lookup docs i d Hi Hd).
    unfold format_doc. replace (i + 1) with (S i) by lia. reflexivity. }
  split.
  { intros i Hi. apply lookup_ge_None. rewrite context_blocks_length. lia. }
  split.
  { intros extra Hlen. unfold build_context, context_blocks.
    rewrite take_app_le by exact Hlen. reflexivity. }
  intros. reflexivity.
Qed.

End WorkflowFacts.

(** ** The workflow on stub providers *)

Section WorkflowExamples.
Import Stubs.

Local Abbreviation graph router retr wk gen := (build_graph router retr wk gen no_float).

(** The end-to-end scenario of the primary route: two passages, a
    generation stub that echoes its context. *)
Example primary_scenario :
  match
    execute (Some (graph to_primary two_passages wiki_ok echo))
      "What are the types of agent memory?" 0 1 []
  with
  | (inr result, evs) =>
      evs =
      [EClassify (VStr "What are the types of agent memory?");
       ENode "retrieve"; ERetrieve (VStr "What are the types of agent memory?");
       ENode "generate";
       EGenerate
         ("Document 1:" +:+ nl +:+ "Short-term memory" +:+ nl +:+ nl +:+
          "Document 2:" +:+ nl +:+ "Long-term memory")
         (VStr "What are the types of agent memory?")] /\
      route_label result = Some (VStr "vectorstore") /\
      context_bundle result =
        Some (VList [passage "Short-term memory"; passage "Long-term memory"]) /\
      answer result =
        Some (VStr ("ANSWER:Document 1:" +:+ nl +:+ "Short-term memory" +:+ nl +:+ nl +:+
                    "Document 2:" +:+ nl +:+ "Long-term memory"))
  | (inl _, _) => False
  end.
Proof. vm_compute. repeat split. Qed.

(** Eight passages come back from the retriever: the result keeps all
    eight, the generation chain sees the first five. *)
Example eight_passages_scenario :
  match
    execute (Some (graph to_primary eight_passages wiki_ok echo)) "q" 0 1 []
  with
  | (inr result, evs) =>
      context_bundle result =
        Some (VList [passage "p1"; passage "p2"; passage "p3"; passage "p4";
                     passage "p5"; passage "p6"; passage "p7"; passage "p8"]) /\
      List.filter is_generation_call evs =
        [EGenerate
           ("Document 1:" +:+ nl +:+ "p1" +:+ nl +:+ nl +:+
            "Document 2:" +:+ nl +:+ "p2" +:+ nl +:+ nl +:+
            "Document 3:" +:+ nl +:+ "p3" +:+ nl +:+ nl +:+
            "Document 4:" +:+ nl +:+ "p4" +:+ nl +:+ nl +:+
            "Document 5:" +:+ nl +:+ "p5")
           (VStr "q")]
  | (inl _, _) => False
  end.
Proof. vm_compute. repeat split. Qed.

(** A classifier answer outside the enum takes the primary route. *)
Example off_enum_scenario :
  match
    execute (Some (graph off_enum two_passages wiki_ok echo)) "q" 0 1 []
  with
  | (inr result, evs) =>
      route_label result = Some (VStr "vectorstore") /\
      visits "retrieve" evs = 1 /\ visits "wiki_search" evs = 0
  | (inl _, _) => False
  end.
Proof. vm_compute. repeat split. Qed.

(** C2, counterexample. The primary stage is entered and completes,
    the generation chain raises: the label is "error", not
    "vectorstore". *)
Lemma C2_counterexample :
  ~ route_names_branch (Some (graph to_primary two_passages wiki_ok generation_down))
      "What are the types of agent memory?" 0 1.
Proof.
  intros Hclaim.
  destruct (Hclaim _ _ eq_refl) as [[_ Hlabel] _].
  specialize (Hlabel eq_refl). vm_compute in Hlabel. discriminate Hlabel.
Qed.

(** C4, witness: the secondary lookup raises and the generation stub
    answers. *)
Lemma C4_witness :
  exists result,
    execute (Some (graph to_secondary two_passages wiki_down echo))
      "Who is Elon Musk?" 0 1 [] = (inr result,
        [EClassify (VStr "Who is Elon Musk?"); ENode "wiki_search";
         EWiki (VStr "Who is Elon Musk?"); ENode "generate";
         EGenerate (build_context no_float (VList [wiki_placeholder "lookup failed"]))
           (VStr "Who is Elon Musk?")]) /\
    context_bundle result = Some (VList [wiki_placeholder "lookup failed"]) /\
    non_error_with_answer result.
Proof.
  destruct (C4_secondary_failure_absorbed to_secondary two_passages wiki_down echo
              no_float "Who is Elon Musk?" 0 1 [] "lookup failed" eq_refl eq_refl)
    as (_ & _ & result & Hexec & Hdocs & _ & Hok & _).
  exists result. split; [exact Hexec|]. split; [exact Hdocs|].
  destruct (Hok _ eq_refl) as (_ & _ & Hanswer).
  apply Hanswer. discriminate.
Defined.

(** C4, counterexample. The question goes to the secondary source and
    the lookup raises.  When the generation chain raises as well, the
    result returned is the error one; when the chain returns the empty
    text, the answer is empty. *)
Lemma C4_counterexample :
  to_secondary (VStr "Who is Elon Musk?") = inr "wiki_search" /\
  wiki_down (VStr "Who is Elon Musk?") = inl "lookup failed" /\
  (forall result evs,
     execute (Some (graph to_secondary two_passages wiki_down generation_down))
       "Who is Elon Musk?" 0 1 [] = (inr result, evs) ->
     route_label result = Some (VStr "error") /\
     ~ non_error_with_answer result) /\
  (forall result evs,
     execute (Some (graph to_secondary two_passages wiki_down generation_silent))
       "Who is Elon Musk?" 0 1 [] = (inr result, evs) ->
     answer result = Some (VStr "") /\
     ~ non_error_with_answer result).
Proof.
  split; [reflexivity|]. split; [reflexivity|]. split.
  - intros result evs Hexec. injection Hexec as <- _.
    split; [reflexivity|]. intros [Hroute _]. apply Hroute. reflexivity.
  - intros result evs Hexec. injection Hexec as <- _.
    split; [reflexivity|]. intros (_ & _ & text & Hanswer & Hne).
    apply Hne. vm_compute in Hanswer. congruence.
Qed.

(** C5, witness: the classifier is unreachable. *)
Lemma C5_witness :
  exists result evs,
    execute (Some (graph classifier_down two_passages wiki_ok echo))
      "Who is Elon Musk?" 0 1 [] = (inr result, [] ++ evs) /\
    evs = [EClassify (VStr "Who is Elon Musk?")] /\
    route_label result = Some (VStr "error") /\
    answer result = Some (VStr "Error executing query: Connection error.") /\
    error_field result = None.
Proof.
  destruct (C5_classifier_failure classifier_down two_passages wiki_ok echo no_float
              "Who is Elon Musk?" 0 1 [] "Connection error." eq_refl)
    as (result & evs & Hexec & _ & Hevs & _ & _ & _ & _ & _ & _ & _ & Hroute & Hans & _ & Herr).
  exists result, evs. repeat split; assumption.
Defined.

(** C5, counterexample. The classifier raises and the result returned
    has no error entry. *)
Lemma C5_counterexample :
  classifier_down (VStr "Who is Elon Musk?") = inl "Connection error." /\
  forall result evs,
    execute (Some (graph classifier_down two_passages wiki_ok echo))
      "Who is Elon Musk?" 0 1 [] = (inr result, evs) ->
    ~ has_error_field result.
Proof.
  split; [reflexivity|].
  intros result evs Hexec (msg & Hfield & _).
  injection Hexec as <- _. vm_compute in Hfield. discriminate Hfield.
Qed.

(** C6, witness: retrieval returns two passages and the generation
    chain raises. *)
Lemma C6_witness :
  exists result evs,
    execute (Some (graph to_primary two_passages wiki_ok generation_down))
      "What are the types of agent memory?" 0 1 [] = (inr result, [] ++ evs) /\
    context_bundle result =
      Some (VList [passage "Short-term memory"; passage "Long-term memory"]) /\
    answer result = Some (VStr "Error executing query: Rate limit reached") /\
    route_label result = Some (VStr "error").
Proof.
  destruct (C6_generation_failure to_primary two_passages wiki_ok generation_down no_float
              "What are the types of agent memory?" 0 1 [] "vectorstore"
              [passage "Short-term memory"; passage "Long-term memory"]
              "Rate limit reached" eq_refl eq_refl)
    as (result & evs & Hexec & _ & _ & _ & Hdocs & Hans & Hroute & _).
  exists result, evs. repeat split; assumption.
Defined.

(** C6, counterexample. Retrieval completes with the label
    "vectorstore", the generation chain raises, and the result
    returned does not keep that label. *)
Lemma C6_counterexample :
  ~ retains_partial (Some (graph to_primary two_passages wiki_ok generation_down))
      "What are the types of agent memory?" 0 1.
Proof.
  intros Hclaim.
  destruct (Hclaim _ _ eq_refl) as [Hroute _].
  vm_compute in Hroute. discriminate Hroute.
Qed.

End WorkflowExamples.

(** ** The scaffold backend *)

Section BackendFacts.
Import Backend.

Context (World : Type)
        (getenv : World -> string -> option string)
        (Settings_new : World -> Exn + Settings).

Local Abbreviation get := (get_settings World Settings_new).
Local Abbreviation handler := (execute_query World getenv Settings_new).
Local Abbreviation endpoint := (post_query World getenv Settings_new).
Local Abbreviation history := (run_history World getenv Settings_new).
Local Abbreviation showing := (shows World getenv).

Lemma QuerySource_of_value_Some (v : string) (src : QuerySource) :
  QuerySource_of_value v = Some src -> v = QuerySource_value src.
Proof.
  unfold QuerySource_of_value.
  repeat match goal with
    | |- context [String.eqb v ?c] => destruct (String.eqb_spec v c) as [-> | _]
    end; intros [= <-]; reflexivity.
Qed.

(** What the handler returns when [get_settings] returns. *)
Lemma execute_query_body (request : QueryRequest) (a : Ambient World) (cache : Cache)
    (body : QueryResponse) (warnings : list string) (cache' : Cache) :
  handler request a cache = (inr (body, warnings), cache') ->
  response body = response MOCK_RESPONSE /\
  sources body = sources MOCK_RESPONSE /\
  tokens (metrics body) = tokens (metrics MOCK_RESPONSE) /\
  routing_reason body =
    "mock: scaffold route to " +:+ QuerySource_value (source request) +:+ " (demo)".
Proof.
  unfold execute_query.
  destruct (get_settings _ _ _ _) as [[e|settings] c]; [discriminate|].
  intros [= <- _ _]. repeat split.
Qed.

(** What an accepted request says about the body it came from. *)
Lemma validate_request_Some (raw : RawRequest) (request : QueryRequest) :
  validate_request raw = Some request ->
  raw_query raw = Some (query request) /\
  1 <= py_len (query request) <= 2000 /\
  QuerySource_value (source request) = default "auto" (raw_source raw).
Proof.
  unfold validate_request.
  destruct (raw_query raw) as [q|]; [|discriminate].
  destruct (Nat.leb_spec 1 (py_len q)) as [Hlo|]; [|discriminate].
  destruct (Nat.leb_spec (py_len q) 2000) as [Hhi|]; [|discriminate].
  simpl.
  destruct (raw_source raw) as [v'|].
  - destruct (QuerySource_of_value v') as [src|] eqn:Hv; [|discriminate].
    destruct (match raw_options raw with Some _ => _ | None => _ end); [|discriminate].
    intros [= <-]. simpl. split; [reflexivity|]. split; [lia|].
    symmetry. apply QuerySource_of_value_Some. exact Hv.
  - destruct (match raw_options raw with Some _ => _ | None => _ end); [|discriminate].
    intros [= <-]. simpl. split; [reflexivity|]. split; [lia|]. reflexivity.
Qed.

(** What the endpoint answers with status 200. *)
Lemma post_query_200 (raw : RawRequest) (a : Ambient World) (cache : Cache)
    (body : QueryResponse) (n : nat) (cache' : Cache) :
  endpoint raw a cache = (Http200 body, n, cache') ->
  exists request warnings,
    validate_request raw = Some request /\
    handler request a cache = (inr (body, warnings), cache').
Proof.
  unfold post_query.
  destruct (validate_request raw) as [request|]; [|discriminate].
  destruct (handler request a cache) as [[e|[b ws]] c] eqn:Hrun; [discriminate|].
  intros [= <- _ <-]. exists request, ws. split; [reflexivity | exact Hrun].
Qed.

(** C8, amended. For any two requests that POST /api/v1/query answers
    with status 200, the response text and the sources are those of
    the one hardcoded mock response, whatever the query text, user id,
    source and options.  The routing explanation is "mock: scaffold
    route to <source> (demo)" for the source the request asks for
    ("auto" when it names none): it is the same for two requests
    exactly when they ask for the same source. *)
Theorem C8_mock_response (raw1 raw2 : RawRequest) (a1 a2 : Ambient World)
    (c1 c2 : Cache) (b1 b2 : QueryResponse) (n1 n2 : nat) (c1' c2' : Cache) :
  endpoint raw1 a1 c1 = (Http200 b1, n1, c1') ->
  endpoint raw2 a2 c2 = (Http200 b2, n2, c2') ->
  response b1 = "This is a deterministic mock answer from IMSKOS scaffold." /\
  response b1 = response b2 /\
  sources b1 = sources MOCK_RESPONSE /\
  sources b1 = sources b2 /\
  routing_reason b1 =
    "mock: scaffold route to " +:+ default "auto" (raw_source raw1) +:+ " (demo)" /\
  (routing_reason b1 = routing_reason b2 <->
   default "auto" (raw_source raw1) = default "auto" (raw_source raw2)).
Proof.
  intros H1 H2.
  destruct (post_query_200 _ _ _ _ _ _ H1) as (r1 & w1 & Hv1 & Hh1).
  destruct (post_query_200 _ _ _ _ _ _ H2) as (r2 & w2 & Hv2 & Hh2).
  destruct (execute_query_body _ _ _ _ _ _ Hh1) as (Hr1 & Hs1 & _ & Hq1).
  destruct (execute_query_body _ _ _ _ _ _ Hh2) as (Hr2 & Hs2 & _ & Hq2).
  destruct (validate_request_Some _ _ Hv1) as (_ & _ & Hsrc1).
  destruct (validate_request_Some _ _ Hv2) as (_ & _ & Hsrc2).
  rewrite Hsrc1 in Hq1. rewrite Hsrc2 in Hq2.
  split; [exact Hr1|]. split; [congruence|]. split; [exact Hs1|].
  split; [congruence|]. split; [exact Hq1|].
  rewrite Hq1, Hq2, <- Hsrc1, <- Hsrc2. split.
  - intros Heq. f_equal.
    destruct (source r1), (source r2); simpl in Heq |- *;
      try reflexivity; discriminate Heq.
  - intros ->. reflexivity.
Qed.

(** C9. A request body is accepted only if its query text has between
    1 and 2000 characters and its source, when given, is one of
    "auto", "vector", "wikipedia" and "web".  A body with an empty
    query, with a query of more than 2000 characters or with another
    source value is rejected, and the endpoint then answers 422
    without running the handler.  The length is the number of
    characters of the text ([py_len]), as the field constraints count
    it, not the number of bytes of its encoding. *)
Theorem C9_request_validation (raw : RawRequest) :
  (forall request,
     validate_request raw = Some request ->
     raw_query raw = Some (query request) /\
     1 <= py_len (query request) <= 2000 /\
     In (QuerySource_value (source request)) ["auto"; "vector"; "wikipedia"; "web"] /\
     (forall v, raw_source raw = Some v -> v = QuerySource_value (source request))) /\
  (raw_query raw = Some "" -> validate_request raw = None) /\
  (forall q,
     raw_query raw = Some q -> 2000 < py_len q ->
     validate_request raw = None) /\
  (forall v,
     raw_source raw = Some v ->
     ~ In v ["auto"; "vector"; "wikipedia"; "web"] ->
     validate_request raw = None) /\
  (forall a cache,
     validate_request raw = None ->
     endpoint raw a cache = (Http422, 0, cache)).
Proof.
  split; [|split; [|split; [|split]]].
  - intros request Hvalid.
    destruct (validate_request_Some raw request Hvalid) as (Hq & Hlen & Hsrc).
    split; [exact Hq|]. split; [exact Hlen|]. split.
    + destruct (source request); simpl; tauto.
    + intros v Hv. rewrite Hv in Hsrc. simpl in Hsrc. congruence.
  - unfold validate_request. intros ->. reflexivity.
  - unfold validate_request. intros q Hq Hlen. rewrite Hq.
    destruct (Nat.leb_spec (py_len q) 2000); [lia|].
    rewrite andb_false_r. reflexivity.
  - unfold validate_request. intros v Hv Hnot.
    destruct (raw_query raw) as [q|]; [|reflexivity].
    destruct (_ && _); [|reflexivity].
    rewrite Hv. destruct (QuerySource_of_value v) as [src|] eqn:Hsrc; [|reflexivity].
    exfalso. apply Hnot. apply QuerySource_of_value_Some in Hsrc as ->.
    destruct src; simpl; tauto.
  - intros a cache Hnone. unfold post_query. rewrite Hnone. reflexivity.
Qed.

(** A call that returns leaves its value in the cache. *)
Lemma get_settings_returns (w : World) (cache : Cache) (s : Settings) (cache' : Cache) :
  get w cache = (inr s, cache') -> cache' = Some s.
Proof.
  unfold get_settings. destruct cache as [s0|].
  - intros [= <- <-]. reflexivity.
  - destruct (Settings_new w); intros [= <- <-]. reflexivity.
Qed.

Lemma step_cached (c : Call) (a : Ambient World) (s : Settings) :
  exists r, step World getenv Settings_new c a (Some s) = (r, Some s) /\ showing s r.
Proof.
  destruct c; simpl; eexists; (split; [reflexivity|]); simpl; eauto.
Qed.

Lemma history_cached (hist : list (Call * Ambient World)) (s : Settings) :
  exists replies, history hist (Some s) = (replies, Some s) /\ Forall (showing s) replies.
Proof.
  induction hist as [|[c a] rest (replies & Hrun & Hall)]; simpl.
  - exists []. split; [reflexivity | constructor].
  - destruct (step_cached c a s) as (r & Hstep & Hshow).
    rewrite Hstep, Hrun. exists (r :: replies).
    split; [reflexivity | constructor; assumption].
Qed.

Lemma step_uncached (c : Call) (a : Ambient World) :
  (exists e, Settings_new (world World a) = inl e /\
             step World getenv Settings_new c a None = (RRaise e, None)) \/
  (exists s r, Settings_new (world World a) = inr s /\
               step World getenv Settings_new c a None = (r, Some s) /\ showing s r).
Proof.
  destruct (Settings_new (world World a)) as [e|s] eqn:Hnew.
  - left. exists e. split; [reflexivity|].
    destruct c; simpl; unfold health_check, execute_query, get_settings;
      rewrite Hnew; reflexivity.
  - right. exists s.
    destruct c; simpl; unfold health_check, execute_query, get_settings;
      rewrite Hnew; eexists; (split; [reflexivity|]); (split; [reflexivity|]);
      simpl; eauto.
Qed.

(** C10. [get_settings] is idempotent: once a call has returned a
    value, every later call returns that value and leaves the cache
    unchanged, whatever the environment has become.  Along any
    history of [get_settings], health and query calls that starts
    with the value cached, the cache never changes and every reply
    shows that value; along a history that starts with an empty
    cache, the replies are exceptions up to the first call that
    returns, and from then on all show the one value that the cache
    holds at the end. *)
Theorem C10_get_settings_idempotent :
  (forall w cache s cache',
     get w cache = (inr s, cache') ->
     cache' = Some s /\ forall w', get w' cache' = (inr s, cache')) /\
  (forall hist s replies cache',
     history hist (Some s) = (replies, cache') ->
     cache' = Some s /\ Forall (showing s) replies) /\
  (forall hist replies cache',
     history hist None = (replies, cache') ->
     match cache' with
     | Some s =>
         exists n, Forall raised (take n replies) /\
                   Forall (showing s) (drop n replies)
     | None => Forall raised replies
     end).
Proof.
  split; [|split].
  - intros w cache s cache' Hget.
    apply get_settings_returns in Hget as ->. split; reflexivity.
  - intros hist s replies cache' Hrun.
    destruct (history_cached hist s) as (replies' & Hrun' & Hall).
    rewrite Hrun' in Hrun. injection Hrun as <- <-. split; [reflexivity | exact Hall].
  - induction hist as [|[c a] rest IH]; intros replies cache' Hrun; simpl in Hrun.
    + injection Hrun as <- <-. constructor.
    + destruct (step_uncached c a) as [(e & _ & Hstep) | (s & r & _ & Hstep & Hshow)];
        rewrite Hstep in Hrun.
      * destruct (history rest None) as [rs c'] eqn:Hrest.
        injection Hrun as <- <-. specialize (IH _ _ eq_refl).
        destruct c' as [s|].
        -- destruct IH as (n & Hraise & Hshow). exists (S n). simpl.
           split; [constructor; [exact I | exact Hraise] | exact Hshow].
        -- constructor; [exact I | exact IH].
      * destruct (history_cached rest s) as (rs & Hrest & Hall).
        rewrite Hrest in Hrun. injection Hrun as <- <-.
        exists 0. simpl. split; constructor; assumption.
Qed.

End BackendFacts.

(** ** The backend on a stub process *)

Section BackendExamples.
Import Backend Stubs.

Local Abbreviation handler := (execute_query Env env_getenv load).
Local Abbreviation endpoint := (post_query Env env_getenv load).

(** C8, witness: a body that names no source and a body that asks for
    the vector source, in two different environments. *)
Lemma C8_witness :
  exists b1 b2 c1 c2,
    endpoint raw_test (ambient empty_env) None = (Http200 b1, 1, c1) /\
    endpoint raw_vector (ambient groq_env) None = (Http200 b2, 1, c2) /\
    response b1 = response b2 /\
    sources b1 = sources b2 /\
    routing_reason b1 = "mock: scaffold route to auto (demo)" /\
    (routing_reason b1 = routing_reason b2 <-> "auto" = "vector").
Proof.
  destruct (C8_mock_response Env env_getenv load raw_test raw_vector
              (ambient empty_env) (ambient groq_env) None None _ _ _ _ _ _
              eq_refl eq_refl)
    as (_ & Hresp & _ & Hsrc & Hreason & Hiff).
  eexists _, _, _, _.
  split; [reflexivity|]. split; [reflexivity|].
  split; [exact Hresp|]. split; [exact Hsrc|]. split; [exact Hreason | exact Hiff].
Defined.

(** C8, counterexample. Two accepted requests with the same query
    text, one that names no source and one that asks for the vector
    source, get different routing explanations. *)
Lemma C8_counterexample :
  ~ same_routing_reason Env env_getenv load raw_test raw_vector
      (ambient empty_env) (ambient empty_env) None None.
Proof.
  intros Hclaim.
  specialize (Hclaim _ _ _ _ _ _ eq_refl eq_refl).
  vm_compute in Hclaim. discriminate Hclaim.
Qed.

(** The request of [test_query_with_options]: the explanation names
    the source that was asked for. *)
Example vector_request_reason :
  validate_request raw_vector = Some request_vector /\
  exists body c,
    endpoint raw_vector (ambient empty_env) None = (Http200 body, 1, c) /\
    id body = "query-01234567" /\
    routing_reason body = "mock: scaffold route to vector (demo)".
Proof. split; [reflexivity|]. eexists _, _. repeat split. Qed.

(** The request of [test_query_validates_empty_query], and a source
    outside the enum: both are answered 422 and the handler does not
    run. *)
Example rejected_requests :
  endpoint raw_empty (ambient empty_env) None = (Http422, 0, None) /\
  endpoint raw_bad_source (ambient empty_env) None = (Http422, 0, None).
Proof. split; reflexivity. Qed.

(** The limits of the query count characters, not bytes: 1001
    accented letters take 2002 bytes and are accepted, 2000 of them
    are accepted, 2001 are answered 422. *)
Example accented_queries :
  py_len (str_mul e_acute 1001) = 1001 /\
  String.length (str_mul e_acute 1001) = 2002 /\
  (exists body c,
     endpoint (raw_accented 1001) (ambient empty_env) None = (Http200 body, 1, c)) /\
  (exists body c,
     endpoint (raw_accented 2000) (ambient empty_env) None = (Http200 body, 1, c)) /\
  endpoint (raw_accented 2001) (ambient empty_env) None = (Http422, 0, None).
Proof.
  split; [vm_compute; reflexivity|]. split; [vm_compute; reflexivity|].
  split; [eexists _, _; vm_compute; reflexivity|].
  split; [eexists _, _; vm_compute; reflexivity|].
  vm_compute. reflexivity.
Qed.

(** A history over a changing environment: the key that appears after
    the first call is not seen by the later ones. *)
Example settings_do_not_follow_the_environment :
  run_history Env env_getenv load
    [(CallGetSettings, ambient empty_env); (CallGetSettings, ambient groq_env);
     (CallHealth, ambient groq_env)] None =
  ([RSettings (settings_of empty_env); RSettings (settings_of empty_env);
    RHealth (mkHealthResponse "healthy" "1.1.0" "development"
               [("supabase", true); ("astra_db", true); ("groq", true);
                ("huggingface", true); ("redis", true); ("s3", true)] 0)],
   Some (settings_of empty_env)).
Proof. reflexivity. Qed.

End BackendExamples.

(** ** More on the workflow *)

Section WorkflowMore.

Context (question_router : PyVal -> Exn + string)
        (retriever : PyVal -> Exn + list Document)
        (wiki : PyVal -> Exn + string)
        (generation_chain : string -> PyVal -> Exn + string)
        (float_repr : Q -> string).

Local Abbreviation G :=
  (build_graph question_router retriever wiki generation_chain float_repr).
Local Abbreviation context_of := (build_context float_repr).
Local Abbreviation run_stream :=
  (stream_build_graph question_router retriever wiki generation_chain float_repr).

Local Ltac cases_of q :=
  rewrite ?run_stream; unfold stream_cases;
  destruct (question_router (VStr q)) as [?e|?src] eqn:?Hrouter;
  [| destruct (String.eqb _ "wiki_search") eqn:?Hsrc;
     [| destruct (retriever (VStr q)) as [?e|?docs] eqn:?Hretr ];
     try destruct (generation_chain _ (VStr q)) as [?e|?g] eqn:?Hgen ].

(** X1. One execution calls the classifier exactly once and first,
    at most one of the retriever and the Wikipedia tool, and the
    generation chain at most once and only after a retrieval call:
    wherever the trace holds a call of the generation chain, the
    events before it hold the classifier call, one call of the
    retriever or of the Wikipedia tool and the entry into the
    generation node, and nothing follows it; a retrieval call is
    itself preceded by the classifier call.  Every call is handed the
    question as it was given, and the stream yields at most two
    updates. *)
Theorem execute_calls_each_provider_at_most_once (q : string) (t0 t1 : Q)
    (tr : list Event) :
  exists result evs,
    execute (Some G) q t0 t1 tr = (inr result, tr ++ evs) /\
    head evs = Some (EClassify (VStr q)) /\
    count is_classifier_call evs = 1 /\
    count is_retriever_call evs + count is_wiki_call evs <= 1 /\
    count is_generation_call evs <= count is_retriever_call evs + count is_wiki_call evs /\
    visits "generate" evs = count is_generation_call evs /\
    Forall (asks (VStr q)) evs /\
    length (stream (Some G) (dict [("question", VStr q)]) tr).1.1 <= 2 /\
    (forall i context question,
       evs !! i = Some (EGenerate context question) ->
       count is_classifier_call (take i evs) = 1 /\
       count is_retriever_call (take i evs) + count is_wiki_call (take i evs) = 1 /\
       visits "generate" (take i evs) = 1 /\
       S i = length evs) /\
    (forall i ev,
       evs !! i = Some ev ->
       is_retriever_call ev || is_wiki_call ev = true ->
       count is_classifier_call (take i evs) = 1 /\
       count is_generation_call (take i evs) = 0).
Proof.
  unfold execute. cases_of q.
  all: eexists _, _; split; [reflexivity|].
  all: split; [reflexivity|].
  all: split; [reflexivity|].
  all: split; [vm_compute; lia|].
  all: split; [vm_compute; lia|].
  all: split; [reflexivity|].
  all: split; [repeat constructor|].
  all: split; [simpl; lia|].
  all: split;
    [ intros i ctx v Hi;
      do 6 (try (destruct i as [|i]; simpl in Hi; try discriminate Hi));
      repeat split
    | intros i ev Hi Hev;
      do 6 (try (destruct i as [|i]; simpl in Hi; try discriminate Hi));
      injection Hi as <-; try discriminate Hev; repeat split ].
Qed.

(** X2. The primary stage does not absorb a retriever failure: the
    node raises what the retriever raises, [execute] turns it into
    the error result with an empty documents list, and the generation
    stage is never entered. *)
Theorem primary_failure_is_not_absorbed (q : string) (t0 t1 : Q) (tr : list Event)
    (source : string) (e : Exn) :
  question_router (VStr q) = inr source ->
  String.eqb source "wiki_search" = false ->
  retriever (VStr q) = inl e ->
  (forall state tr0,
     state !! "question" = Some (VStr q) ->
     retrieve retriever state tr0 = (inl e, tr0 ++ [ERetrieve (VStr q)])) /\
  exists result,
    execute (Some G) q t0 t1 tr =
    (inr result, tr ++ [EClassify (VStr q); ENode "retrieve"; ERetrieve (VStr q)]) /\
    route_label result = Some (VStr "error") /\
    answer result = Some (error_answer e) /\
    context_bundle result = Some (VList []).
Proof.
  intros Hrouter Hsource Hretr. split.
  - intros state tr0 Hq. rewrite (retrieve_run retriever state (VStr q)) by exact Hq.
    rewrite Hretr. reflexivity.
  - unfold execute. rewrite run_stream. unfold stream_cases. rewrite Hrouter.
    rewrite Hsource.
    rewrite Hretr. eexists. split; [reflexivity|]. repeat split.
Qed.

(** X3. On the secondary route the bundle of the result is always
    exactly one passage without metadata: the text the lookup
    returned when it returned, the placeholder otherwise; the
    retriever is not called. *)
Theorem secondary_bundle_is_one_passage (q : string) (t0 t1 : Q) (tr : list Event) :
  question_router (VStr q) = inr "wiki_search" ->
  exists result evs d,
    execute (Some G) q t0 t1 tr = (inr result, tr ++ evs) /\
    context_bundle result = Some (VList [d]) /\
    metadata d = [] /\
    (forall text, wiki (VStr q) = inr text -> page_content d = text) /\
    (forall e, wiki (VStr q) = inl e -> d = wiki_placeholder e) /\
    count is_wiki_call evs = 1 /\
    count is_retriever_call evs = 0.
Proof.
  intros Hrouter. unfold execute. rewrite run_stream. unfold stream_cases.
  rewrite Hrouter. change (String.eqb "wiki_search" "wiki_search") with true.
  cbv iota zeta.
  destruct (generation_chain _ (VStr q)) as [e|g].
  all: eexists _, _, (wiki_document wiki (VStr q)); split; [reflexivity|].
  all: split; [reflexivity|].
  all: unfold wiki_document; destruct (wiki (VStr q)) as [e'|text].
  all: split; [reflexivity|].
  all: split; [intros ? [=]; subst; reflexivity|].
  all: split; [intros ? [=]; subst; reflexivity|].
  all: split; reflexivity.
Qed.

(** X4. When the primary route succeeds, the result carries the
    label "vectorstore", the text the generation chain returned, and
    the whole bundle the retriever returned: the cut to five passages
    applies to the prompt only. *)
Theorem primary_success_keeps_whole_bundle (q : string) (t0 t1 : Q) (tr : list Event)
    (source : string) (docs : list Document) (g : string) :
  question_router (VStr q) = inr source ->
  String.eqb source "wiki_search" = false ->
  retriever (VStr q) = inr docs ->
  generation_chain (context_of (VList docs)) (VStr q) = inr g ->
  exists result,
    execute (Some G) q t0 t1 tr =
    (inr result,
     tr ++ [EClassify (VStr q); ENode "retrieve"; ERetrieve (VStr q); ENode "generate";
            EGenerate (join (nl +:+ nl) (context_blocks docs)) (VStr q)]) /\
    route_label result = Some (VStr "vectorstore") /\
    context_bundle result = Some (VList docs) /\
    answer result = Some (VStr g) /\
    error_field result = None /\
    length (context_blocks docs) = Nat.min 5 (length docs).
Proof.
  intros Hrouter Hsource Hretr Hgen.
  unfold execute. rewrite run_stream. unfold stream_cases. rewrite Hrouter.
  rewrite Hsource.
  rewrite Hretr. cbv zeta. rewrite Hgen.
  eexists. split; [reflexivity|]. repeat split.
  unfold context_blocks. rewrite length_imap. apply length_take.
Qed.

(** X5. An empty retrieval does not stop the pipeline: the generation
    chain is still called, on the empty context, and the result has
    an empty documents list. *)
Theorem empty_retrieval_still_generates (q : string) (t0 t1 : Q) (tr : list Event)
    (source : string) :
  question_router (VStr q) = inr source ->
  String.eqb source "wiki_search" = false ->
  retriever (VStr q) = inr [] ->
  exists result,
    execute (Some G) q t0 t1 tr =
    (inr result,
     tr ++ [EClassify (VStr q); ENode "retrieve"; ERetrieve (VStr q); ENode "generate";
            EGenerate "" (VStr q)]) /\
    context_bundle result = Some (VList []) /\
    (forall g, generation_chain "" (VStr q) = inr g ->
       route_label result = Some (VStr "vectorstore") /\ answer result = Some (VStr g)).
Proof.
  intros Hrouter Hsource Hretr.
  unfold execute. rewrite run_stream. unfold stream_cases. rewrite Hrouter.
  rewrite Hsource.
  rewrite Hretr. cbv zeta.
  change (context_of (VList [])) with "".
  destruct (generation_chain "" (VStr q)) as [e|g].
  - eexists. split; [reflexivity|]. split; [reflexivity|]. intros g [=].
  - eexists. split; [reflexivity|]. split; [reflexivity|].
    intros g' [= <-]. split; reflexivity.
Qed.

(** X6. Every node and the path function read the question with
    [state["question"]]: on a state without it they raise the key
    error before any provider is called, and so does [wiki_search],
    whose [try] covers the lookup only.  [generate] also needs
    ["documents"], but falls back to "unknown" for a missing route. *)
Theorem nodes_need_their_keys (state : gmap string PyVal) (tr : list Event) :
  (state !! "question" = None ->
     route_question question_router state tr = (inl (key_error "question"), tr) /\
     retrieve retriever state tr = (inl (key_error "question"), tr) /\
     wiki_search wiki state tr = (inl (key_error "question"), tr) /\
     generate generation_chain float_repr state tr = (inl (key_error "question"), tr)) /\
  (forall qv,
     state !! "question" = Some qv -> state !! "documents" = None ->
     generate generation_chain float_repr state tr = (inl (key_error "documents"), tr)) /\
  (forall qv docs g,
     state !! "question" = Some qv -> state !! "documents" = Some (VList docs) ->
     state !! "route" = None ->
     generation_chain (context_of (VList docs)) qv = inr g ->
     exists update,
       generate generation_chain float_repr state tr =
       (inr update, tr ++ [EGenerate (context_of (VList docs)) qv]) /\
       update !! "route" = Some (VStr "unknown") /\
       update !! "documents" = Some (VList docs)).
Proof.
  split; [|split].
  - intros Hq.
    unfold route_question, retrieve, wiki_search, generate, getitem, bind, raise.
    rewrite Hq. repeat split.
  - intros qv Hq Hd. unfold generate, getitem, bind, raise, ret.
    rewrite Hq, Hd. reflexivity.
  - intros qv docs g Hq Hd Hr Hgen.
    unfold generate, generate_response, getitem, bind, ret, call.
    rewrite Hq, Hd. cbv beta iota zeta. rewrite Hgen, Hr.
    eexists. split; [reflexivity|]. split; reflexivity.
Qed.

End WorkflowMore.

(** ** Configuration and indexing of app.py *)

Section AppConfigFacts.
Import App.

Context (secrets : string -> Exn + option string)
        (getenv : string -> option string).

Local Abbreviation secret := (get_secret secrets getenv).

(** X7. [load_env_variables] returns only when each of the three
    values is a non-empty string: it then shows nothing and returns
    the three values under their keys.  Otherwise it stops the
    script after an error that lists exactly the keys whose value is
    missing or empty, in the order of the dict, and the setup
    instructions. *)
Theorem load_env_variables_outcome :
  match load_env_variables secrets getenv with
  | (ui, Returned vars) =>
      ui = [] /\
      vars = [ ("ASTRA_DB_APPLICATION_TOKEN", secret "ASTRA_DB_APPLICATION_TOKEN");
               ("ASTRA_DB_ID", secret "ASTRA_DB_ID");
               ("GROQ_API_KEY", secret "GROQ_API_KEY") ] /\
      Forall (fun kv : string * option string => truthy kv.2 = true) vars
  | (ui, Stopped) =>
      exists missing,
        missing <> [] /\
        ui = [StError ("⚠️ Missing environment variables: " +:+ join ", " missing);
              StInfo setup_instructions] /\
        missing =
          List.filter (fun k => negb (truthy (secret k)))
            ["ASTRA_DB_APPLICATION_TOKEN"; "ASTRA_DB_ID"; "GROQ_API_KEY"]
  end.
Proof.
  unfold load_env_variables, missing_vars, required_vars. simpl.
  destruct (truthy (secret "ASTRA_DB_APPLICATION_TOKEN")) eqn:H1;
    destruct (truthy (secret "ASTRA_DB_ID")) eqn:H2;
    destruct (truthy (secret "GROQ_API_KEY")) eqn:H3; simpl.
  1: split; [reflexivity|]; split; [reflexivity|]; repeat constructor; assumption.
  all: eexists; split; [|split; [|reflexivity]]; [discriminate | reflexivity].
Qed.

(** X8. A key that is present in [st.secrets] is never looked up in
    the environment: when its secret is the empty string the script
    stops and the error names the key, whatever the environment
    holds. *)
Theorem empty_secret_shadows_environment (key : string) :
  In key ["ASTRA_DB_APPLICATION_TOKEN"; "ASTRA_DB_ID"; "GROQ_API_KEY"] ->
  secrets key = inr (Some "") ->
  secret key = Some "" /\
  In key (missing_vars secrets getenv) /\
  exists ui, load_env_variables secrets getenv = (ui, Stopped).
Proof.
  intros Hkey Hsecret.
  assert (Hget : secret key = Some "") by (unfold get_secret; rewrite Hsecret; reflexivity).
  assert (Hmiss : In key (missing_vars secrets getenv)).
  { unfold missing_vars, required_vars. apply in_map_iff.
    exists (key, secret key). split; [reflexivity|].
    apply filter_In. split.
    - simpl in Hkey |- *. destruct Hkey as [<-|[<-|[<-|[]]]]; auto.
    - simpl. rewrite Hget. reflexivity. }
  split; [exact Hget|]. split; [exact Hmiss|].
  unfold load_env_variables. destruct (missing_vars secrets getenv); [contradiction|].
  eexists. reflexivity.
Qed.

(** X9. When [st.secrets] cannot be read, or does not hold a key, the
    value comes from the environment: with no readable secret the
    outcome is the one the environment alone gives, and the function
    returns the environment's values when all three are non-empty. *)
Theorem unreadable_secrets_fall_back_to_environment :
  (forall key, secrets key = inr None \/ exists e, secrets key = inl e) ->
  (forall key, secret key = getenv key) /\
  load_env_variables secrets getenv = load_env_variables (fun _ => inr None) getenv /\
  (truthy (getenv "ASTRA_DB_APPLICATION_TOKEN") = true ->
   truthy (getenv "ASTRA_DB_ID") = true ->
   truthy (getenv "GROQ_API_KEY") = true ->
   load_env_variables secrets getenv =
   ([], Returned [ ("ASTRA_DB_APPLICATION_TOKEN", getenv "ASTRA_DB_APPLICATION_TOKEN");
                   ("ASTRA_DB_ID", getenv "ASTRA_DB_ID");
                   ("GROQ_API_KEY", getenv "GROQ_API_KEY") ])).
Proof.
  intros Hnone.
  assert (Hget : forall key, secret key = getenv key).
  { intros key. unfold get_secret. destruct (Hnone key) as [-> | [e ->]]; reflexivity. }
  split; [exact Hget|]. split.
  - unfold load_env_variables, missing_vars, required_vars. rewrite !Hget. reflexivity.
  - intros H1 H2 H3.
    unfold load_env_variables, missing_vars, required_vars. rewrite !Hget. simpl.
    rewrite H1, H2, H3. reflexivity.
Qed.

End AppConfigFacts.

Section KnowledgeBaseFacts.
Import App.

Context (web_load : string -> Exn + list Document)
        (split_documents : list Document -> Exn + list Document).

Local Abbreviation loop := (load_loop web_load).
Local Abbreviation shown := (shown_for web_load).
Local Abbreviation loaded := (loaded_from web_load).
Local Abbreviation page urls callback :=
  (load_and_process_documents web_load split_documents urls callback).1.

(** The loop in closed form: what it adds to the documents and to the
    page. *)
Lemma load_loop_closed (callback : bool) (total : nat) (urls : list string) :
  forall (i : nat) (docs : list Document) (ui : list Ui),
    loop callback total i urls docs ui =
    (docs ++ flat_map loaded urls,
     ui ++ concat (imap (fun j url => shown callback total (i + j) url) urls)).
Proof.
  induction urls as [|url rest IH]; intros i docs ui.
  - simpl. rewrite !app_nil_r. reflexivity.
  - cbn [load_loop imap concat flat_map].
    replace (imap ((fun j url0 => shown callback total (i + j) url0) ∘ S) rest)
      with (imap (fun j url0 => shown callback total (S i + j) url0) rest)
      by (apply imap_ext; intros j x _; simpl; f_equal; lia).
    rewrite Nat.add_0_r.
    assert (Hl : loaded url =
                 match web_load url with inr got => got | inl _ => [] end)
      by reflexivity.
    assert (Hs : shown callback total i url =
                 match web_load url with
                 | inr _ =>
                     if callback
                     then [Progress ("Loaded " +:+ str_nat (i + 1) +:+ "/" +:+
                                     str_nat total +:+ " documents")]
                     else []
                 | inl e => [StWarning ("Failed to load " +:+ url +:+ ": " +:+ e)]
                 end)
      by reflexivity.
    rewrite Hl, Hs.
    destruct (web_load url); rewrite IH, <- !app_assoc; reflexivity.
Qed.

Lemma concat_shown_warnings (callback : bool) (total : nat) (urls : list string) :
  forall i,
    length (List.filter is_warning
              (concat (imap (fun j url => shown callback total (i + j) url) urls))) =
    length (List.filter (failed web_load) urls).
Proof.
  induction urls as [|url rest IH]; intros i; [reflexivity|].
  cbn [imap concat].
  replace (imap ((fun j url0 => shown callback total (i + j) url0) ∘ S) rest)
    with (imap (fun j url0 => shown callback total (S i + j) url0) rest)
    by (apply imap_ext; intros j x _; simpl; f_equal; lia).
  rewrite List.filter_app, length_app, (IH (S i)).
  cbn [List.filter]. unfold shown_for, failed.
  destruct (web_load url); [|destruct callback]; simpl; lia.
Qed.

Lemma concat_shown_loud (total : nat) (urls : list string) :
  forall i,
    concat (imap (fun j url => shown true total (i + j) url) urls) =
    imap (fun j url =>
            match web_load url with
            | inr _ =>
                Progress ("Loaded " +:+ str_nat (i + j + 1) +:+ "/" +:+
                          str_nat total +:+ " documents")
            | inl e => StWarning ("Failed to load " +:+ url +:+ ": " +:+ e)
            end) urls.
Proof.
  induction urls as [|url rest IH]; intros i; [reflexivity|].
  cbn [imap concat].
  replace (imap ((fun j url0 => shown true total (i + j) url0) ∘ S) rest)
    with (imap (fun j url0 => shown true total (S i + j) url0) rest)
    by (apply imap_ext; intros j x _; simpl; f_equal; lia).
  rewrite (IH (S i)), Nat.add_0_r. unfold shown_for.
  destruct (web_load url); simpl; f_equal;
    apply imap_ext; intros j x _; simpl; destruct (web_load x);
    repeat f_equal; lia.
Qed.

Lemma concat_shown_quiet (total : nat) (urls : list string) :
  forall i,
    length (concat (imap (fun j url => shown false total (i + j) url) urls)) =
    length (List.filter (failed web_load) urls).
Proof.
  induction urls as [|url rest IH]; intros i; [reflexivity|].
  cbn [imap concat].
  replace (imap ((fun j url0 => shown false total (i + j) url0) ∘ S) rest)
    with (imap (fun j url0 => shown false total (S i + j) url0) rest)
    by (apply imap_ext; intros j x _; simpl; f_equal; lia).
  rewrite length_app, (IH (S i)).
  cbn [List.filter]. unfold shown_for, failed.
  destruct (web_load url); simpl; lia.
Qed.

(** What the indexing shows, in closed form. *)
Lemma shown_closed (urls : list string) (callback : bool) :
  (load_and_process_documents web_load split_documents urls callback).1 =
  (if callback then [Progress "Loading documents from URLs..."] else []) ++
  concat (imap (fun j url => shown callback (length urls) (0 + j) url) urls) ++
  (if callback then [Progress "Splitting documents into chunks..."] else []).
Proof.
  unfold load_and_process_documents. rewrite load_loop_closed.
  cbn [fst]. rewrite <- app_assoc. reflexivity.
Qed.

(** X10. An address that cannot be loaded does not stop the indexing:
    the splitter is handed the documents of the addresses that
    loaded, in the order of the addresses, whether or not a progress
    callback is given, and the function returns what the splitter
    returns.  When no address loads, the splitter is handed the empty
    list. *)
Theorem load_skips_failed_urls (urls : list string) (callback : bool) :
  (load_and_process_documents web_load split_documents urls callback).2 =
    split_documents (flat_map loaded urls) /\
  (forall more,
     flat_map loaded (urls ++ more) = flat_map loaded urls ++ flat_map loaded more) /\
  (forall url docs, In url urls -> web_load url = inr docs ->
     forall d, In d docs -> In d (flat_map loaded urls)) /\
  (Forall (fun url => failed web_load url = true) urls ->
   (load_and_process_documents web_load split_documents urls callback).2 =
     split_documents []).
Proof.
  assert (Hdocs : (load_and_process_documents web_load split_documents urls callback).2 =
                  split_documents (flat_map loaded urls)).
  { unfold load_and_process_documents. rewrite load_loop_closed. reflexivity. }
  split; [exact Hdocs|]. split; [intros more; apply flat_map_app|]. split.
  - intros url docs Hin Hload d Hd. apply in_flat_map. exists url. split; [exact Hin|].
    unfold loaded_from. rewrite Hload. exact Hd.
  - intros Hall. rewrite Hdocs. f_equal. clear Hdocs.
    induction Hall as [|url rest Hfail _ IH]; simpl; [reflexivity|].
    rewrite IH, app_nil_r. unfold failed in Hfail. unfold loaded_from.
    destruct (web_load url); [reflexivity | discriminate].
Qed.

(** X11. The page gets one warning for each address that failed, with
    or without a callback.  With a callback it gets one message per
    address between the two fixed ones, and the message for an
    address that loaded counts its position in the list, not the
    number of addresses loaded so far; without a callback it gets the
    warnings only. *)
Theorem load_shows_one_message_per_url (urls : list string) (callback : bool) :
  length (List.filter is_warning (page urls callback)) =
    length (List.filter (failed web_load) urls) /\
  (callback = true ->
   length (page urls callback) = length urls + 2 /\
   head (page urls callback) = Some (Progress "Loading documents from URLs...") /\
   last (page urls callback) = Some (Progress "Splitting documents into chunks...") /\
   forall i url docs,
     urls !! i = Some url -> web_load url = inr docs ->
     page urls callback !! (S i) =
     Some (Progress ("Loaded " +:+ str_nat (i + 1) +:+ "/" +:+
                     str_nat (length urls) +:+ " documents"))) /\
  (callback = false ->
   length (page urls callback) = length (List.filter (failed web_load) urls)).
Proof.
  rewrite shown_closed.
  split; [|split].
  - destruct callback.
    + rewrite !List.filter_app, !length_app,
        (concat_shown_warnings true (length urls) urls 0).
      simpl. lia.
    + rewrite app_nil_r. apply (concat_shown_warnings false (length urls) urls 0).
  - intros ->. rewrite (concat_shown_loud (length urls) urls 0).
    split; [rewrite !length_app, length_imap; simpl; lia|].
    split; [reflexivity|].
    split.
    { rewrite app_assoc. apply last_snoc. }
    intros i url docs Hi Hload.
    change ((([Progress "Loading documents from URLs..."] ++
              imap (fun j url0 =>
                      match web_load url0 with
                      | inr _ =>
                          Progress ("Loaded " +:+ str_nat (0 + j + 1) +:+ "/" +:+
                                    str_nat (length urls) +:+ " documents")
                      | inl e => StWarning ("Failed to load " +:+ url0 +:+ ": " +:+ e)
                      end) urls ++
              [Progress "Splitting documents into chunks..."]) !! S i))
      with ((imap (fun j url0 =>
                      match web_load url0 with
                      | inr _ =>
                          Progress ("Loaded " +:+ str_nat (0 + j + 1) +:+ "/" +:+
                                    str_nat (length urls) +:+ " documents")
                      | inl e => StWarning ("Failed to load " +:+ url0 +:+ ": " +:+ e)
                      end) urls ++
              [Progress "Splitting documents into chunks..."]) !! i).
    rewrite lookup_app_l by (rewrite length_imap; apply lookup_lt_Some in Hi; exact Hi).
    rewrite list_lookup_imap, Hi. simpl. rewrite Hload. reflexivity.
  - intros ->. simpl. rewrite app_nil_r.
    apply (concat_shown_quiet (length urls) urls 0).
Qed.

End KnowledgeBaseFacts.

(** ** What the page shows and counts *)

Section DisplayFacts.
Import App.

Context (question_router : PyVal -> Exn + string)
        (retriever : PyVal -> Exn + list Document)
        (wiki : PyVal -> Exn + string)
        (generation_chain : string -> PyVal -> Exn + string)
        (float_repr : Q -> string).

Local Abbreviation G :=
  (build_graph question_router retriever wiki generation_chain float_repr).

Lemma length_append (s1 s2 : string) :
  String.length (s1 +:+ s2) = String.length s1 + String.length s2.
Proof. induction s1 as [|c s1 IH]; simpl; [reflexivity | rewrite IH; reflexivity]. Qed.

Lemma length_str_take (n : nat) (s : string) :
  String.length (str_take n s) = Nat.min n (String.length s).
Proof.
  unfold str_take. revert s.
  induction n as [|n IH]; intros [|c s]; simpl; try reflexivity.
  rewrite IH. reflexivity.
Qed.

Lemma py_len_append (s1 s2 : string) :
  py_len (s1 +:+ s2) = py_len s1 + py_len s2.
Proof.
  induction s1 as [|c s1 IH]; [reflexivity|].
  simpl. rewrite IH. destruct (is_continuation c); reflexivity.
Qed.
Lemma py_len_take (n : nat) (s : string) :
  py_len (py_take n s) = Nat.min n (py_len s).
Proof.
  revert n. induction s as [|c s IH]; intros n.
  - simpl. lia.
  - simpl. destruct (is_continuation c) eqn:Hc.
    + simpl. rewrite Hc. apply IH.
    + destruct n as [|n]; [reflexivity|].
      simpl. rewrite Hc, IH. reflexivity.
Qed.

(** A slice is a prefix of the text it is taken from. *)
Lemma py_take_prefix (n : nat) (s : string) :
  exists rest, s = py_take n s +:+ rest.
Proof.
  revert n. induction s as [|c s IH]; intros n.
  - exists EmptyString. reflexivity.
  - simpl. destruct (is_continuation c).
    + destruct (IH n) as [rest Hrest]. exists rest.
      exact (f_equal (String c) Hrest).
    + destruct n as [|n].
      * exists (String c s). reflexivity.
      * destruct (IH n) as [rest Hrest]. exists rest.
        exact (f_equal (String c) Hrest).
Qed.

(** Slicing again what was appended to a slice, when the appended text
    starts a new character. *)
Lemma py_take_append (n : nat) (s : string) (c : ascii) (t : string) :
  is_continuation c = false ->
  n <= py_len s ->
  py_take n (py_take n s +:+ String c t) = py_take n s.
Proof.
  intros Hlead. revert n. induction s as [|a s IH]; intros n Hlen.
  - simpl in Hlen. assert (n = 0) as -> by lia.
    simpl. rewrite Hlead. reflexivity.
  - simpl in Hlen. simpl.
    destruct (is_continuation a) eqn:Ha.
    + simpl. rewrite Ha. f_equal. apply IH. exact Hlen.
    + destruct n as [|n].
      * simpl. rewrite Hlead. reflexivity.
      * simpl. rewrite Ha. f_equal. apply IH. lia.
Qed.

(** X12. The preview stored in the query history is the answer
    itself when the answer has at most 100 characters; a longer
    answer is cut to its first 100 characters followed by three dots,
    so a preview never has more than 103 characters.  Characters are
    counted as Python counts them, whatever the number of bytes of
    their encoding. *)
Theorem response_preview_bounds (generation : string) :
  py_len (response_preview generation) <= 103 /\
  (py_len generation <= 100 -> response_preview generation = generation) /\
  (100 < py_len generation ->
   response_preview generation = py_take 100 generation +:+ "..." /\
   py_len (response_preview generation) = 103 /\
   py_len (py_take 100 generation) = 100 /\
   (exists rest, generation = py_take 100 generation +:+ rest) /\
   py_take 100 (response_preview generation) = py_take 100 generation).
Proof.
  unfold response_preview.
  destruct (Nat.ltb_spec 100 (py_len generation)) as [Hlong|Hshort].
  - assert (Hcut : py_len (py_take 100 generation) = 100).
    { rewrite py_len_take. lia. }
    assert (Hlen : py_len (py_take 100 generation +:+ "...") = 103).
    { rewrite py_len_append, Hcut. reflexivity. }
    split; [lia|]. split; [lia|]. intros _.
    split; [reflexivity|]. split; [exact Hlen|]. split; [exact Hcut|].
    split; [apply py_take_prefix|].
    apply py_take_append; [reflexivity | lia].
  - split; [lia|]. split; [reflexivity | lia].
Qed.

(** X13. Every result of [execute] can be recorded in the query
    history: the entry keeps the query and the execution time, and it
    is filed under "Vector Store" exactly when the route label is
    "vectorstore".  An execution whose stream raised, with the label
    "error", is therefore filed under "Wikipedia", with the error
    message as its preview. *)
Theorem error_result_is_filed_under_wikipedia (q : string) (t0 t1 : Q)
    (tr : list Event) (now : string) :
  exists result evs h,
    execute (Some G) q t0 t1 tr = (inr result, tr ++ evs) /\
    history_entry q result now = Some h /\
    h_query h = q /\
    h_timestamp h = now /\
    h_execution_time h = Qminus t1 t0 /\
    (h_route h = "Vector Store" <-> route_label result = Some (VStr "vectorstore")) /\
    (h_route h = "Vector Store" \/ h_route h = "Wikipedia") /\
    (forall e,
       stream_exception (Some G) q tr = Some e ->
       h_route h = "Wikipedia" /\
       h_response_preview h = response_preview ("Error executing query: " +:+ e)).
Proof.
  unfold execute, stream_exception.
  rewrite stream_build_graph. unfold stream_cases.
  destruct (question_router (VStr q)) as [e|src];
    [| destruct (String.eqb src "wiki_search");
       [| destruct (retriever (VStr q)) as [e|docs] ];
       try destruct (generation_chain _ (VStr q)) as [e|g] ].
  all: eexists _, _, _; split; [reflexivity|].
  all: split; [reflexivity|].
  all: split; [reflexivity|].
  all: split; [reflexivity|].
  all: split; [reflexivity|].
  all: split; [split; intros H; first [reflexivity | vm_compute in H; discriminate H]|].
  all: split; [first [left; reflexivity | right; reflexivity]|].
  all: intros e' [=]; subst; split; reflexivity.
Qed.




End DisplayFacts.

(** ** More on the backend *)

Section BackendMore.
Import Backend BackendApp.

Context (World : Type)
        (getenv : World -> string -> option string)
        (Settings_new : World -> Exn + Settings).

Local Abbreviation get := (get_settings World Settings_new).
Local Abbreviation handler := (execute_query World getenv Settings_new).
Local Abbreviation endpoint := (post_query World getenv Settings_new).
Local Abbreviation history := (run_history World getenv Settings_new).
Local Abbreviation startup := (lifespan_startup World getenv Settings_new).
Local Abbreviation factory := (create_app World Settings_new).

(** X15. The values of [QuerySource] and its members correspond one
    to one: looking up a member's value gives the member back, a
    string is accepted exactly when it is the value of the member
    found, and rejected exactly when it is none of the four values. *)
Theorem QuerySource_round_trip :
  (forall s, QuerySource_of_value (QuerySource_value s) = Some s) /\
  (forall v s, QuerySource_of_value v = Some s <-> v = QuerySource_value s) /\
  (forall v, QuerySource_of_value v = None <->
             ~ In v ["auto"; "vector"; "wikipedia"; "web"]).
Proof.
  assert (Hback : forall s, QuerySource_of_value (QuerySource_value s) = Some s)
    by (intros []; reflexivity).
  split; [exact Hback|]. split.
  - intros v s. split; [apply QuerySource_of_value_Some | intros ->; apply Hback].
  - intros v. split.
    + intros Hnone Hin. simpl in Hin.
      destruct Hin as [<-|[<-|[<-|[<-|[]]]]]; discriminate Hnone.
    + intros Hnot. destruct (QuerySource_of_value v) as [s|] eqn:Hv; [|reflexivity].
      exfalso. apply Hnot. apply QuerySource_of_value_Some in Hv as ->.
      destruct s; simpl; tauto.
Qed.

(** X16. [QueryOptions] is accepted exactly when [top_k], or 5 when it
    is left out, lies between 1 and 20 and [temperature], or 0.0 when
    it is left out, lies between 0.0 and 2.0; the accepted options
    carry these values and [hyde], or [False] when it is left out. *)
Theorem validate_options_spec (raw : RawOptions) (o : QueryOptions) :
  validate_options raw = Some o <->
  o = mkQueryOptions (default 5%Z (raw_top_k raw)) (default 0%Q (raw_temperature raw))
        (default false (raw_hyde raw)) /\
  (1 <= top_k o <= 20)%Z /\
  Qle 0 (temperature o) /\ Qle (temperature o) 2.
Proof.
  unfold validate_options.
  destruct (Z.leb_spec 1 (default 5%Z (raw_top_k raw))) as [Hk1|Hk1];
    destruct (Z.leb_spec (default 5%Z (raw_top_k raw)) 20) as [Hk2|Hk2];
    destruct (Qle_bool 0 (default 0%Q (raw_temperature raw))) eqn:Ht1;
    destruct (Qle_bool (default 0%Q (raw_temperature raw)) 2) eqn:Ht2;
    simpl.
  1: { apply Qle_bool_iff in Ht1, Ht2. split.
       - intros [= <-]. simpl. repeat split; assumption.
       - intros [-> _]. reflexivity. }
  all: split; [discriminate|]; intros (-> & Hk & Hlo & Hhi); simpl in *; exfalso.
  all: try lia.
  all: try (apply Qle_bool_iff in Hlo; congruence).
  all: try (apply Qle_bool_iff in Hhi; congruence).
Qed.

(** X17. A request body is accepted exactly when the query is there
    with 1 to 2000 characters (counted as characters, not bytes), the
    source is left out or is the value
    of a [QuerySource] member, and the options are left out or
    valid.  The accepted request keeps the query and the user id as
    they came, takes [AUTO] and the default options for what is left
    out, and the user id never decides whether a body is accepted. *)
Theorem validate_request_spec (raw : RawRequest) (request : QueryRequest) :
  validate_request raw = Some request <->
  raw_query raw = Some (query request) /\
  1 <= py_len (query request) <= 2000 /\
  user_id request = raw_user_id raw /\
  match raw_source raw with
  | None => source request = AUTO
  | Some v => v = QuerySource_value (source request)
  end /\
  match raw_options raw with
  | None => options request = default_options
  | Some o => validate_options o = Some (options request)
  end.
Proof.
  unfold validate_request. split.
  - destruct (raw_query raw) as [q|]; [|discriminate].
    destruct (Nat.leb_spec 1 (py_len q)); [|discriminate].
    destruct (Nat.leb_spec (py_len q) 2000); [|discriminate].
    simpl.
    destruct (raw_source raw) as [v|].
    + destruct (QuerySource_of_value v) as [src|] eqn:Hv; [|discriminate].
      apply QuerySource_of_value_Some in Hv.
      destruct (raw_options raw) as [o|].
      * destruct (validate_options o) as [opts|] eqn:Ho; [|discriminate].
        intros [= <-]. simpl. repeat split; try assumption; lia.
      * intros [= <-]. simpl. repeat split; try assumption; lia.
    + destruct (raw_options raw) as [o|].
      * destruct (validate_options o) as [opts|] eqn:Ho; [|discriminate].
        intros [= <-]. simpl. repeat split; try assumption; lia.
      * intros [= <-]. simpl. repeat split; try assumption; lia.
  - intros (Hq & [Hlo Hhi] & Hu & Hsrc & Hopts). rewrite Hq.
    apply Nat.leb_le in Hlo, Hhi. rewrite Hlo, Hhi. cbn [andb].
    assert (Hback : forall s, QuerySource_of_value (QuerySource_value s) = Some s)
      by (intros []; reflexivity).
    destruct (raw_source raw) as [v|]; [subst v; rewrite Hback|];
      (destruct (raw_options raw) as [o|]; [rewrite Hopts|]);
      rewrite <- Hu; destruct request; simpl in *; subst; reflexivity.
Qed.

(** X18. The answer of POST /api/v1/query, case by case.  It is 422
    exactly when the body is not valid, and then the handler does not
    run and the cache is untouched.  It is 500 only when the body is
    valid, no settings are cached and [Settings()] raises, and then
    nothing is cached.  Otherwise it is 200 with the handler run once
    and the settings cached: the cached ones, or the ones just
    built. *)
Theorem post_query_status (raw : RawRequest) (a : Ambient World) (cache : Cache) :
  match endpoint raw a cache with
  | (Http422, runs, cache') =>
      validate_request raw = None /\ runs = 0 /\ cache' = cache
  | (Http500 e, runs, cache') =>
      validate_request raw <> None /\ runs = 1 /\
      cache = None /\ cache' = None /\ Settings_new (world World a) = inl e
  | (Http200 body, runs, cache') =>
      exists request s,
        validate_request raw = Some request /\ runs = 1 /\ cache' = Some s /\
        (cache = Some s \/ cache = None /\ Settings_new (world World a) = inr s) /\
        routing_reason body =
          "mock: scaffold route to " +:+ QuerySource_value (source request) +:+ " (demo)"
  end.
Proof.
  unfold post_query.
  destruct (validate_request raw) as [request|]; [|repeat split].
  unfold execute_query, get_settings.
  destruct cache as [s|].
  - exists request, s. repeat split. left. reflexivity.
  - destruct (Settings_new (world World a)) as [e|s].
    + repeat split. discriminate.
    + exists request, s. repeat split. right. split; reflexivity.
Qed.

(** X19. What the handler puts in a response besides the mock text:
    an id made of "query-" and the first eight hex digits of a fresh
    uuid, which is never the id of the mock response and has 14
    characters for a uuid of at least eight digits; the mock's token
    and stage metrics; sources whose similarity scores lie between 0
    and 1, as [SourceResult] requires; and an elapsed time of at
    least 75 ms when the clock has not gone backwards. *)
Theorem execute_query_id_and_metrics (request : QueryRequest) (a : Ambient World)
    (cache : Cache) (body : QueryResponse) (warnings : list string) (cache' : Cache) :
  handler request a cache = (inr (body, warnings), cache') ->
  id body = "query-" +:+ str_take 8 (uuid_hex World a) /\
  id body <> id MOCK_RESPONSE /\
  (8 <= String.length (uuid_hex World a) -> String.length (id body) = 14) /\
  tokens (metrics body) = 34%Z /\
  embedding_ms (metrics body) = Some 15%Z /\
  retrieval_ms (metrics body) = Some 35%Z /\
  llm_ms (metrics body) = Some 25%Z /\
  Forall (fun src => Qle 0 (similarity_score src) /\ Qle (similarity_score src) 1)
    (sources body) /\
  (Qle (time0 World a) (time1 World a) -> (75 <= elapsed_ms (metrics body))%Z).
Proof.
  unfold execute_query.
  destruct (get_settings _ _ _ _) as [[e|settings] c]; [discriminate|].
  intros [= <- _ _].
  cbn [id metrics tokens embedding_ms retrieval_ms llm_ms elapsed_ms sources].
  split; [reflexivity|]. split; [discriminate|]. split.
  { intros Hlen. rewrite length_append, length_str_take. simpl String.length. lia. }
  split; [reflexivity|]. split; [reflexivity|]. split; [reflexivity|].
  split; [reflexivity|].
  split; [repeat constructor; unfold Qle; simpl; lia|].
  intros Hclock. unfold int_of_float.
  assert (Hnum : (0 <= Qnum (Qmult (Qminus (time1 World a) (time0 World a)) 1000))%Z).
  { unfold Qle in Hclock. unfold Qmult, Qminus, Qplus, Qopp. simpl. lia. }
  pose proof (Z.quot_pos _ (Zpos (Qden (Qmult (Qminus (time1 World a) (time0 World a)) 1000)))
                Hnum ltac:(lia)).
  lia.
Qed.

End BackendMore.

(** ** Mock mode, startup and the settings cache *)

Section MockModeFacts.
Import Backend BackendApp.

Context (World : Type)
        (getenv : World -> string -> option string)
        (Settings_new : World -> Exn + Settings).

Local Abbreviation startup := (lifespan_startup World getenv Settings_new).
Local Abbreviation factory := (create_app World Settings_new).
Local Abbreviation endpoint := (post_query World getenv Settings_new).
Local Abbreviation history := (run_history World getenv Settings_new).

Lemma truthy_spec (o : option string) :
  truthy o = true <-> exists v, o = Some v /\ v <> "".
Proof.
  unfold truthy. destruct o as [v|].
  - destruct (String.eqb_spec v "") as [-> | Hne]; simpl; split.
    + discriminate.
    + intros (v & [= <-] & Hne). contradiction.
    + intros _. exists v. split; [reflexivity | exact Hne].
    + reflexivity.
  - split; [discriminate | intros (v & [=] & _)].
Qed.

(** X20. The mock status always lists the six services in the same
    order, and a service is out of mock mode exactly when each of its
    credentials is a non-empty string: an empty value counts as a
    missing one, and no other setting is looked at. *)
Theorem get_mock_status_spec (s : Settings) :
  map fst (get_mock_status s) =
    ["supabase"; "astra_db"; "groq"; "huggingface"; "redis"; "s3"] /\
  (forall o, truthy o = true <-> exists v, o = Some v /\ v <> "") /\
  (In ("supabase", false) (get_mock_status s) <->
     truthy (supabase_url s) = true /\ truthy (supabase_anon_key s) = true) /\
  (In ("astra_db", false) (get_mock_status s) <->
     truthy (astra_db_application_token s) = true /\ truthy (astra_db_id s) = true) /\
  (In ("groq", false) (get_mock_status s) <-> truthy (groq_api_key s) = true) /\
  (In ("huggingface", false) (get_mock_status s) <->
     truthy (huggingface_api_key s) = true) /\
  (In ("redis", false) (get_mock_status s) <->
     truthy (upstash_redis_rest_url s) = true /\
     truthy (upstash_redis_rest_token s) = true) /\
  (In ("s3", false) (get_mock_status s) <->
     truthy (s3_endpoint s) = true /\ truthy (s3_access_key s) = true /\
     truthy (s3_secret_key s) = true).
Proof.
  split; [reflexivity|]. split; [exact truthy_spec|].
  unfold get_mock_status, all_truthy. cbn [forallb In].
  repeat match goal with |- _ /\ _ => split end.
  all: repeat match goal with
         | |- _ <-> ?R =>
             match R with context [truthy ?o] => destruct (truthy o) end
         end.
  all: cbn [andb negb]; intuition congruence.
Qed.

Lemma flat_map_all_nil {A B : Type} (f : A -> list B) (l : list A) :
  (forall x, f x = []) -> flat_map f l = [].
Proof.
  intros Hnil. induction l as [|x l IH]; simpl; [reflexivity|].
  rewrite Hnil, IH. reflexivity.
Qed.

Lemma no_flag_no_warning (f : string -> list string) (status : list (string * bool)) :
  mock_services status = [] ->
  flat_map (fun item : string * bool =>
              let '(service, is_mock) := item in if is_mock then f service else [])
    status = [].
Proof.
  unfold mock_services.
  induction status as [|[service [|]] rest IH]; simpl; intros Hnone.
  - reflexivity.
  - discriminate Hnone.
  - apply IH. exact Hnone.
Qed.

(** Nothing is flagged, nothing is missing. *)
Lemma quiet_when_nothing_flagged (env : string -> option string) (s : Settings) :
  mock_services (get_mock_status s) = [] -> log_mock_mode_warnings env s = [].
Proof.
  intros Hnone. unfold log_mock_mode_warnings.
  apply (no_flag_no_warning
           (fun service =>
              flat_map (fun var => if negb (truthy (env var))
                                   then ["MOCK MODE: missing " +:+ var] else [])
                (items_get service env_var_mapping))).
  exact Hnone.
Qed.

(** X21. A warning is logged for a variable exactly when its service
    is flagged by the mock status and [os.getenv] has no non-empty
    value for it, and it reads "MOCK MODE: missing <variable>".  So
    no warning is logged when no service is flagged, and none either
    when the environment holds every variable, even if the settings
    flag a service. *)
Theorem log_mock_mode_warnings_spec (env : string -> option string) (s : Settings) :
  (forall w,
     In w (log_mock_mode_warnings env s) <->
     exists service var,
       In (service, true) (get_mock_status s) /\
       In var (items_get service env_var_mapping) /\
       truthy (env var) = false /\
       w = "MOCK MODE: missing " +:+ var) /\
  (mock_services (get_mock_status s) = [] -> log_mock_mode_warnings env s = []) /\
  ((forall var, truthy (env var) = true) -> log_mock_mode_warnings env s = []).
Proof.
  split; [|split].
  - intros w. unfold log_mock_mode_warnings. rewrite in_flat_map. split.
    + intros ([service [|]] & Hin & Hw); [|destruct Hw].
      apply in_flat_map in Hw as (var & Hvar & Hw).
      destruct (truthy (env var)) eqn:Hset; simpl in Hw; [destruct Hw|].
      destruct Hw as [<-|[]]. exists service, var. repeat split; assumption.
    + intros (service & var & Hin & Hvar & Hset & ->).
      exists (service, true). split; [exact Hin|].
      apply in_flat_map. exists var. split; [exact Hvar|].
      rewrite Hset. simpl. left. reflexivity.
  - apply quiet_when_nothing_flagged.
  - intros Hset. unfold log_mock_mode_warnings.
    apply flat_map_all_nil. intros [service [|]]; [|reflexivity].
    apply flat_map_all_nil. intros var. rewrite Hset. reflexivity.
Qed.

(** X22. What the lifespan logs at startup.  It starts with the
    version line and the environment line; its warnings are the mock
    mode warnings; when no service is flagged these two lines are all
    there is, and otherwise the last line names the flagged services.
    The startup raises only when no settings are cached and
    [Settings()] raises. *)
Theorem lifespan_startup_log (w : World) (cache : Cache) :
  match startup w cache with
  | (inl e, cache') => cache = None /\ cache' = None /\ Settings_new w = inl e
  | (inr logs, cache') =>
      exists s,
        cache' = Some s /\
        take 2 logs = [ LogInfo ("Starting IMSKOS API v" +:+ app_version s);
                        LogInfo ("Environment: " +:+ environment s) ] /\
        (forall msg, In (LogWarning msg) logs <->
                     In msg (log_mock_mode_warnings (getenv w) s)) /\
        (mock_services (get_mock_status s) = [] -> length logs = 2) /\
        (mock_services (get_mock_status s) <> [] ->
         last logs =
         Some (LogInfo ("Running in MOCK MODE for: " +:+
                        join ", " (mock_services (get_mock_status s)))))
  end.
Proof.
  unfold lifespan_startup, get_settings.
  assert (Hlogs : forall s,
    let logs :=
      [ LogInfo ("Starting IMSKOS API v" +:+ app_version s);
        LogInfo ("Environment: " +:+ environment s) ]
      ++ map LogWarning (log_mock_mode_warnings (getenv w) s)
      ++ match mock_services (get_mock_status s) with
         | [] => []
         | services => [LogInfo ("Running in MOCK MODE for: " +:+ join ", " services)]
         end in
    take 2 logs = [ LogInfo ("Starting IMSKOS API v" +:+ app_version s);
                    LogInfo ("Environment: " +:+ environment s) ] /\
    (forall msg, In (LogWarning msg) logs <->
                 In msg (log_mock_mode_warnings (getenv w) s)) /\
    (mock_services (get_mock_status s) = [] -> length logs = 2) /\
    (mock_services (get_mock_status s) <> [] ->
     last logs =
     Some (LogInfo ("Running in MOCK MODE for: " +:+
                    join ", " (mock_services (get_mock_status s)))))).
  { intros s. cbv zeta. split; [reflexivity|]. split; [|split].
    - intros msg. cbn [app In]. rewrite in_app_iff, in_map_iff. split.
      + intros [[=]|[[=]|[(m & [= <-] & Hm)|Hlast]]]; [exact Hm|].
        destruct (mock_services (get_mock_status s)); simpl in Hlast;
          [destruct Hlast | destruct Hlast as [[=]|[]]].
      + intros Hm. right. right. left. exists msg. split; [reflexivity | exact Hm].
    - intros Hnone.
      rewrite (quiet_when_nothing_flagged (getenv w) s Hnone), Hnone. reflexivity.
    - intros Hsome. destruct (mock_services (get_mock_status s)) as [|svc more];
        [contradiction|].
      rewrite !app_assoc. apply last_snoc. }
  destruct cache as [s|].
  - exists s. split; [reflexivity | apply Hlogs].
  - destruct (Settings_new w) as [e|s].
    + repeat split.
    + exists s. split; [reflexivity | apply Hlogs].
Qed.

(** X23. [create_app] reads the settings, so a process whose
    application was created has them cached: the application carries
    their version, and from then on the startup of the lifespan and
    every call return, no request is answered 500 and every reply
    shows the settings the application was created with, whatever
    the environment has become. *)
Theorem create_app_primes_cache (w : World) (app : FastAPI) (cache : Cache) :
  factory w None = (inr app, cache) ->
  exists s,
    Settings_new w = inr s /\
    cache = Some s /\
    api_version app = app_version s /\
    routes app = [("GET", "/health"); ("POST", "/api/v1/query")] /\
    (forall hist,
       exists replies,
         history hist cache = (replies, Some s) /\
         Forall (shows World getenv s) replies) /\
    (forall w', exists logs, startup w' cache = (inr logs, Some s)) /\
    (forall raw a e runs cache', endpoint raw a cache <> (Http500 e, runs, cache')).
Proof.
  unfold create_app, get_settings.
  destruct (Settings_new w) as [e|s]; [discriminate|].
  intros [= <- <-]. exists s.
  split; [reflexivity|]. split; [reflexivity|]. split; [reflexivity|].
  split; [reflexivity|]. split; [|split].
  - intros hist. apply history_cached.
  - intros w'. eexists. reflexivity.
  - intros raw a e runs cache'. unfold post_query.
    destruct (validate_request raw); [|discriminate].
    unfold execute_query, get_settings. discriminate.
Qed.

(** X24. A failure of [Settings()] is not cached: a request answered
    500 leaves the cache empty, and the same body is answered 200 as
    soon as [Settings()] can be built, with the new settings cached. *)
Theorem settings_failure_is_not_cached (raw : RawRequest) (a a' : Ambient World)
    (e : Exn) (runs : nat) (cache' : Cache) (s : Settings) :
  endpoint raw a None = (Http500 e, runs, cache') ->
  Settings_new (world World a') = inr s ->
  cache' = None /\
  Settings_new (world World a) = inl e /\
  exists body, endpoint raw a' cache' = (Http200 body, 1, Some s).
Proof.
  unfold post_query.
  destruct (validate_request raw) as [request|]; [|discriminate].
  unfold execute_query, get_settings.
  destruct (Settings_new (world World a)) as [e0|s0]; [|discriminate].
  intros [= <- <- <-] Hnew. split; [reflexivity|]. split; [reflexivity|].
  rewrite Hnew. eexists. reflexivity.
Qed.

End MockModeFacts.

(** ** The added properties on stub inputs *)

Section MoreExamples.
Import Backend BackendApp App Stubs MoreStubs.

Local Abbreviation graph router retr wk gen := (build_graph router retr wk gen no_float).

(** X2, witness: the retriever is down. *)
Lemma primary_failure_witness :
  exists result,
    execute (Some (graph to_primary retriever_down wiki_ok echo)) "q" 0 1 [] =
    (inr result, [] ++ [EClassify (VStr "q"); ENode "retrieve"; ERetrieve (VStr "q")]) /\
    route_label result = Some (VStr "error") /\
    answer result = Some (VStr "Error executing query: Cassandra unavailable") /\
    context_bundle result = Some (VList []).
Proof.
  exact (proj2 (primary_failure_is_not_absorbed to_primary retriever_down wiki_ok echo
                  no_float "q" 0 1 [] "vectorstore" "Cassandra unavailable"
                  eq_refl eq_refl eq_refl)).
Defined.

(** X3, witness: the lookup returns a summary. *)
Lemma secondary_bundle_witness :
  exists result evs d,
    execute (Some (graph to_secondary two_passages wiki_ok echo)) "q" 0 1 [] =
    (inr result, [] ++ evs) /\
    context_bundle result = Some (VList [d]) /\
    page_content d = "Elon Musk is a businessman.".
Proof.
  destruct (secondary_bundle_is_one_passage to_secondary two_passages wiki_ok echo
              no_float "q" 0 1 [] eq_refl)
    as (result & evs & d & Hexec & Hdocs & _ & Htext & _).
  exists result, evs, d. split; [exact Hexec|]. split; [exact Hdocs|].
  apply Htext. reflexivity.
Defined.

(** X4, witness: eight passages come back and all eight are kept. *)
Lemma primary_success_witness :
  exists result evs,
    execute (Some (graph to_primary eight_passages wiki_ok echo)) "q" 0 1 [] =
    (inr result, [] ++ evs) /\
    context_bundle result =
      Some (VList [passage "p1"; passage "p2"; passage "p3"; passage "p4";
                   passage "p5"; passage "p6"; passage "p7"; passage "p8"]) /\
    route_label result = Some (VStr "vectorstore").
Proof.
  destruct (primary_success_keeps_whole_bundle to_primary eight_passages wiki_ok echo
              no_float "q" 0 1 [] "vectorstore" _ _ eq_refl eq_refl eq_refl eq_refl)
    as (result & Hexec & Hroute & Hdocs & _).
  eexists result, _. split; [exact Hexec|]. split; [exact Hdocs | exact Hroute].
Defined.

(** X5, witness: the retriever finds nothing. *)
Lemma empty_retrieval_witness :
  exists result,
    execute (Some (graph to_primary no_passages wiki_ok echo)) "q" 0 1 [] =
    (inr result,
     [] ++ [EClassify (VStr "q"); ENode "retrieve"; ERetrieve (VStr "q");
            ENode "generate"; EGenerate "" (VStr "q")]) /\
    context_bundle result = Some (VList []) /\
    answer result = Some (VStr "ANSWER:").
Proof.
  destruct (empty_retrieval_still_generates to_primary no_passages wiki_ok echo
              no_float "q" 0 1 [] "vectorstore" eq_refl eq_refl eq_refl)
    as (result & Hexec & Hdocs & Hgen).
  exists result. split; [exact Hexec|]. split; [exact Hdocs|].
  exact (proj2 (Hgen _ eq_refl)).
Defined.

(** X8, witness: the secrets hold an empty Groq key, the environment
    holds all three variables. *)
Lemma empty_secret_witness :
  get_secret secrets_empty_groq full_env "GROQ_API_KEY" = Some "" /\
  full_env "GROQ_API_KEY" = Some "value-of-GROQ_API_KEY" /\
  exists ui, load_env_variables secrets_empty_groq full_env = (ui, Stopped).
Proof.
  destruct (empty_secret_shadows_environment secrets_empty_groq full_env "GROQ_API_KEY"
              ltac:(simpl; tauto) eq_refl)
    as (Hget & _ & Hstop).
  split; [exact Hget|]. split; [reflexivity | exact Hstop].
Defined.

(** X9, witness: the secrets cannot be read, the environment holds
    all three variables. *)
Lemma unreadable_secrets_witness :
  load_env_variables secrets_unreadable full_env =
  ([], Returned [ ("ASTRA_DB_APPLICATION_TOKEN", Some "value-of-ASTRA_DB_APPLICATION_TOKEN");
                  ("ASTRA_DB_ID", Some "value-of-ASTRA_DB_ID");
                  ("GROQ_API_KEY", Some "value-of-GROQ_API_KEY") ]).
Proof.
  exact (proj2 (proj2 (unreadable_secrets_fall_back_to_environment secrets_unreadable
                         full_env
                         (fun key => or_intror (ex_intro _ "No secrets found" eq_refl))))
           eq_refl eq_refl eq_refl).
Defined.

(** An answer of 60 accented letters, 120 bytes, is its own preview;
    one of 101 is cut after the hundredth letter. *)
Example accented_previews :
  response_preview (str_mul e_acute 60) = str_mul e_acute 60 /\
  response_preview (str_mul e_acute 101) = str_mul e_acute 100 +:+ "...".
Proof. split; vm_compute; reflexivity. Qed.

(** Two addresses, the first of which fails: the message for the
    second counts it as the second. *)
Example indexing_with_a_failure :
  load_and_process_documents web_load_stub split_stub ["bad"; "good"] true =
  ([ Progress "Loading documents from URLs...";
     StWarning "Failed to load bad: 404";
     Progress "Loaded 2/2 documents";
     Progress "Splitting documents into chunks..." ],
   inr [passage "good"]).
Proof. reflexivity. Qed.


(** X19, witness: the request of the tests on a clock that stands
    still. *)
Lemma execute_query_witness :
  exists body warnings cache,
    execute_query Env env_getenv load request_vector (ambient empty_env) None =
    (inr (body, warnings), cache) /\
    id body = "query-01234567" /\
    String.length (id body) = 14 /\
    (75 <= elapsed_ms (metrics body))%Z.
Proof.
  destruct (execute_query_id_and_metrics Env env_getenv load request_vector
              (ambient empty_env) None _ _ _ eq_refl)
    as (Hid & _ & Hlen & _ & _ & _ & _ & _ & Helapsed).
  eexists _, _, _. split; [reflexivity|]. split; [exact Hid|].
  split; [apply Hlen; simpl; lia | apply Helapsed; unfold Qle; simpl; lia].
Defined.

(** X23, witness: the application is created in an empty environment,
    the Groq key appears later and is not seen. *)
Lemma create_app_witness :
  exists app replies,
    create_app Env load empty_env None = (inr app, Some (settings_of empty_env)) /\
    api_version app = "1.1.0" /\
    run_history Env env_getenv load
      [(CallHealth, ambient groq_env); (CallQuery request_vector, ambient groq_env)]
      (Some (settings_of empty_env)) = (replies, Some (settings_of empty_env)) /\
    Forall (shows Env env_getenv (settings_of empty_env)) replies.
Proof.
  destruct (create_app_primes_cache Env env_getenv load empty_env _ _ eq_refl)
    as (s & Hnew & Hcache & Hversion & _ & Hhist & _ & _).
  injection Hcache as <-.
  destruct (Hhist [(CallHealth, ambient groq_env);
                   (CallQuery request_vector, ambient groq_env)])
    as (replies & Hrun & Hall).
  eexists _, replies. split; [reflexivity|]. split; [exact Hversion|].
  split; [exact Hrun | exact Hall].
Defined.

(** X24, witness: [Settings()] fails for the first request and works
    for the second. *)
Lemma settings_failure_witness :
  post_query bool flaky_getenv flaky_load raw_test (flaky_ambient false) None =
    (Http500 "validation error", 1, None) /\
  exists body,
    post_query bool flaky_getenv flaky_load raw_test (flaky_ambient true) None =
    (Http200 body, 1, Some (settings_of empty_env)).
Proof.
  destruct (settings_failure_is_not_cached bool flaky_getenv flaky_load raw_test
              (flaky_ambient false) (flaky_ambient true) "validation error" 1 None
              (settings_of empty_env) eq_refl eq_refl)
    as (_ & _ & Hretry).
  split; [reflexivity | exact Hretry].
Defined.

End MoreExamples.
